(** * UsernameEye: the username prober of iPhoenix (src/modules/username_eye.py)

    A shallow embedding of the module followed by the properties of its
    classifier ([_analyze_response]), of one platform task
    ([_check_single_platform]) and of the orchestrating loop ([analyze]).

    Conventions of the embedding.
    - A Python [str] is a [string]: a sequence of 8-bit characters, read as the
      UTF-8 bytes of the text.  [str.lower] is modelled on the ASCII range
      (the only range in which the indicator phrases of the module live).
    - Verdicts are the very strings the module returns ("found",
      "not_found", "timeout", ...), compared with [String.eqb] as the source
      compares them with [==].
    - A Python [dict] is an insertion-ordered association list ([dict]).
    - A call that may raise returns a [result]; the loop of [analyze], which
      mutates [results] inside [try ... except], runs in a state-and-exception
      monad [M] in which the state survives a raise.
    - The HTTP client ([requests.get]), the clock and the completion order of
      the thread pool are parameters of the model.
    - [print] calls are progress output only and are left out. *)

From Stdlib Require Import List String Ascii ZArith NArith Lia Bool Permutation.
From Stdlib Require Import DecimalString.
Import ListNotations.

Local Open Scope list_scope.
Local Open Scope string_scope.

(* ================================================================== *)
(** ** Python strings *)

Module PyStr.

(** [s.startswith(p)] *)
Fixpoint startswith (p s : string) : bool :=
  match p, s with
  | EmptyString, _ => true
  | String _ _, EmptyString => false
  | String a p', String b s' => Ascii.eqb a b && startswith p' s'
  end.

(** [needle in hay] on two strings: substring test. *)
Fixpoint contains (needle hay : string) : bool :=
  startswith needle hay ||
  match hay with
  | EmptyString => false
  | String _ hay' => contains needle hay'
  end.

(** [c in s] for a single character. *)
Fixpoint mem_char (c : ascii) (s : string) : bool :=
  match s with
  | EmptyString => false
  | String a s' => Ascii.eqb a c || mem_char c s'
  end.

Definition is_upper (c : ascii) : bool :=
  let n := N_of_ascii c in (65 <=? n)%N && (n <=? 90)%N.

Definition lower_char (c : ascii) : ascii :=
  if is_upper c then ascii_of_N (N_of_ascii c + 32) else c.

(** [s.lower()] *)
Fixpoint lower (s : string) : string :=
  match s with
  | EmptyString => EmptyString
  | String c s' => String (lower_char c) (lower s')
  end.

(** [any(indicator in s for indicator in indicators)] *)
Definition any_in (indicators : list string) (s : string) : bool :=
  existsb (fun indicator => contains indicator s) indicators.

End PyStr.
Import PyStr.

(* ================================================================== *)
(** ** Exceptions and results *)

(** The exception classes the module can meet.  [ConnectTimeout] derives from
    both [requests.exceptions.ConnectionError] and
    [requests.exceptions.Timeout]. *)
Inductive exception : Type :=
| ReadTimeout (msg : string)
| ConnectTimeout (msg : string)
| ConnectionError (msg : string)
| KeyError (msg : string)
| ValueError (msg : string)
| OtherException (msg : string).

(** [str(e)] *)
Definition str (e : exception) : string :=
  match e with
  | ReadTimeout m | ConnectTimeout m | ConnectionError m
  | KeyError m | ValueError m | OtherException m => m
  end.

(** [isinstance(e, requests.exceptions.Timeout)] *)
Definition is_Timeout (e : exception) : bool :=
  match e with
  | ReadTimeout _ | ConnectTimeout _ => true
  | _ => false
  end.

(** [isinstance(e, requests.exceptions.ConnectionError)] *)
Definition is_ConnectionError (e : exception) : bool :=
  match e with
  | ConnectTimeout _ | ConnectionError _ => true
  | _ => false
  end.

Inductive result (A : Type) : Type :=
| Return (a : A)
| Raise (e : exception).
Arguments Return {A} a.
Arguments Raise {A} e.

Definition rbind {A B} (x : result A) (f : A -> result B) : result B :=
  match x with
  | Return a => f a
  | Raise e => Raise e
  end.

(* ================================================================== *)
(** ** Dictionaries (insertion ordered) *)

Section Dict.
Context {V : Type}.

Definition dict := list (string * V).

(** [d[k]], [None] standing for [KeyError]. *)
Fixpoint dict_get (k : string) (d : dict) : option V :=
  match d with
  | [] => None
  | (k', v) :: d' => if String.eqb k' k then Some v else dict_get k d'
  end.

(** [d[k] = v]: an existing key keeps its position, a new key goes last. *)
Fixpoint dict_set (k : string) (v : V) (d : dict) : dict :=
  match d with
  | [] => [(k, v)]
  | (k', v') :: d' =>
      if String.eqb k' k then (k, v) :: d' else (k', v') :: dict_set k v d'
  end.

Definition keys (d : dict) : list string := map fst d.

End Dict.
Arguments dict V : clear implicits.

(* ================================================================== *)
(** ** urllib.parse.quote and str.format *)

Definition is_alnum (c : ascii) : bool :=
  let n := N_of_ascii c in
  ((48 <=? n) && (n <=? 57) || (65 <=? n) && (n <=? 90)
   || (97 <=? n) && (n <=? 122))%N.

(** The characters [quote] never encodes: letters, digits and [_.-~]. *)
Definition always_safe (c : ascii) : bool :=
  is_alnum c || mem_char c "_.-~".

Definition hex_digit (n : N) : ascii :=
  if (n <? 10)%N then ascii_of_N (48 + n) else ascii_of_N (55 + n).

(** ["%{:02X}".format(byte)] *)
Definition percent (c : ascii) : string :=
  let n := N_of_ascii c in
  String "%" (String (hex_digit (n / 16)) (String (hex_digit (n mod 16)) EmptyString)).

Fixpoint quote_from_bytes (safe : string) (bs : string) : string :=
  match bs with
  | EmptyString => EmptyString
  | String c bs' =>
      (if always_safe c || mem_char c safe then String c EmptyString else percent c)
      ++ quote_from_bytes safe bs'
  end.

(** [quote(string)] with its default [safe='/']. *)
Definition quote (s : string) : string := quote_from_bytes "/" s.

(** [template.format(username=value)].  [field] is [Some name] while the scan
    is inside a replacement field whose name read so far is [name].  [{{] and
    [}}] are the escapes; a field other than [username] is a [KeyError], an
    unbalanced brace a [ValueError]. *)
Fixpoint format_scan (field : option string) (value template : string)
  : result string :=
  match field, template with
  | None, EmptyString => Return EmptyString
  | None, String c rest =>
      if Ascii.eqb c "{" then
        match rest with
        | String c' rest' =>
            if Ascii.eqb c' "{"
            then rbind (format_scan None value rest')
                       (fun s => Return (String "{" s))
            else format_scan (Some EmptyString) value rest
        | EmptyString => Raise (ValueError "Single '{' encountered in format string")
        end
      else if Ascii.eqb c "}" then
        match rest with
        | String c' rest' =>
            if Ascii.eqb c' "}"
            then rbind (format_scan None value rest')
                       (fun s => Return (String "}" s))
            else Raise (ValueError "Single '}' encountered in format string")
        | EmptyString => Raise (ValueError "Single '}' encountered in format string")
        end
      else rbind (format_scan None value rest) (fun s => Return (String c s))
  | Some name, EmptyString =>
      Raise (ValueError "expected '}' before end of string")
  | Some name, String c rest =>
      if Ascii.eqb c "}" then
        if String.eqb name "username"
        then rbind (format_scan None value rest) (fun s => Return (value ++ s))
        else Raise (KeyError name)
      else format_scan (Some (name ++ String c EmptyString)) value rest
  end.

Definition format (template value : string) : result string :=
  format_scan None value template.

(* ================================================================== *)
(** ** The classifier *)

Record Response := {
  status_code : Z;
  url : string;      (* the final URL, after redirects *)
  text : string
}.

Definition login_indicators : list string :=
  ["/login"; "signin"; "auth"; "join"; "register"].

Definition not_found_indicators : list string :=
  ["page not found"; "doesn't exist"; "not found"; "couldn't find";
   "does not exist"; "no such user"; "user not found"].

(** The double-quote character and the two GitHub body markers of the
    source, which contain it: the JSON fragments for is_verified:true and for
    the start of a login field. *)
Definition dq : string := String "034"%char EmptyString.
Definition is_verified_marker : string := dq ++ "is_verified" ++ dq ++ ":true".
Definition login_marker : string := dq ++ "login" ++ dq ++ ":" ++ dq.

(** [UsernameEye._analyze_response] ([self] is not used by the method). *)
Definition _analyze_response (platform : string) (response : Response)
  : string :=
  if (status_code response =? 404)%Z then "not_found" else
  let final_url := lower (url response) in
  if any_in login_indicators final_url then "not_found" else
  let content_lower := lower (text response) in
  if any_in not_found_indicators content_lower then "not_found" else
  if String.eqb platform "GitHub" && (status_code response =? 200)%Z
     && (contains is_verified_marker (text response)
         || contains login_marker (text response))
  then "found" else
  if String.eqb platform "Twitter" && (status_code response =? 200)%Z
     && contains "data-user-id=" (text response)
  then "found" else
  if (status_code response =? 200)%Z then "found" else
  "unknown".

(* ================================================================== *)
(** ** The object and its registry *)

Record UsernameEye := {
  headers : dict string;
  timeout : Z;
  platforms : dict string
}.

(** [UsernameEye._get_platforms] *)
Definition _get_platforms : dict string :=
  [ ("GitHub", "https://github.com/{username}");
    ("Twitter", "https://twitter.com/{username}");
    ("Instagram", "https://instagram.com/{username}");
    ("Reddit", "https://reddit.com/user/{username}");
    ("YouTube", "https://youtube.com/@{username}");
    ("TikTok", "https://tiktok.com/@{username}");
    ("Twitch", "https://twitch.tv/{username}");
    ("GitLab", "https://gitlab.com/{username}");
    ("Keybase", "https://keybase.io/{username}");
    ("Dev.to", "https://dev.to/{username}");
    ("Medium", "https://medium.com/@{username}");
    ("Pinterest", "https://pinterest.com/{username}");
    ("Flickr", "https://flickr.com/people/{username}");
    ("Steam", "https://steamcommunity.com/id/{username}");
    ("Spotify", "https://open.spotify.com/user/{username}");
    ("Telegram", "https://t.me/{username}");
    ("Wikipedia", "https://en.wikipedia.org/wiki/User:{username}");
    ("Bitbucket", "https://bitbucket.org/{username}");
    ("HackerNews", "https://news.ycombinator.com/user?id={username}");
    ("Pastebin", "https://pastebin.com/u/{username}");
    ("Replit", "https://replit.com/@{username}") ]%list.

(** [UsernameEye.__init__] *)
Definition __init__ : UsernameEye := {|
  headers :=
    [("User-Agent",
      "Mozilla/5.0 (X11; Linux x86_64) AppleWebKit/537.36 (KHTML, like Gecko) Chrome/91.0.4472.124 Safari/537.36 iPhoenix-OSINT/1.0")]%list;
  timeout := 10;
  platforms := _get_platforms
|}.

(* ================================================================== *)
(** ** One platform task *)

(** What a task hands back: [(status, response_time, details)], where
    [details] is either empty or holds [status_code] and [final_url].  The
    response time stands for [round((time.time() - start_time) * 1000, 2)]
    and is kept in hundredths of a millisecond. *)
Definition outcome : Type := string * Z * option (Z * string).

(** The collaborators of a run: [requests.get(url, headers=, timeout=,
    allow_redirects=)] and the elapsed time the clock shows around the request
    to a URL. *)
Record World := {
  requests_get : string -> dict string -> Z -> bool -> result Response;
  elapsed : string -> Z
}.

Section Task.
Variable world : World.
Variable self : UsernameEye.

(** The request of lines 128 to 136: Instagram gets an [Accept] header and
    no redirects, every other platform the plain headers and redirects. *)
Definition send_request (platform url : string) : result Response :=
  if String.eqb platform "Instagram" then
    let headers' :=
      dict_set "Accept" "text/html,application/xhtml+xml,application/xml"
               (headers self) in
    requests_get world url headers' (timeout self) false
  else if String.eqb platform "Twitter" then
    requests_get world url (headers self) (timeout self) true
  else
    requests_get world url (headers self) (timeout self) true.

(** [UsernameEye._check_single_platform].  The first line sits outside the
    [try], so a malformed template raises out of the task. *)
Definition _check_single_platform (platform url_template username : string)
  : result outcome :=
  rbind (format url_template (quote username)) (fun url =>
    let attempt : result outcome :=
      rbind (send_request platform url) (fun response =>
        let response_time := elapsed world url in
        let status := _analyze_response platform response in
        let '{| url := final_url |} := response in
        Return (status, response_time,
                Some (status_code response, final_url)))
    in
    match attempt with
    | Return r => Return r
    | Raise e =>
        if is_Timeout e then Return ("timeout", 0%Z, None)
        else if is_ConnectionError e then Return ("connection_error", 0%Z, None)
        else Return ("error: " ++ str e, 0%Z, None)
    end).

End Task.

(* ================================================================== *)
(** ** The results object and the monad of the collecting loop *)

(** One value of [results['platforms_checked']]: the success shape has
    [response_time_ms], the failure shape has [error]. *)
Record Entry := {
  status : string;
  response_time_ms : option Z;
  error : option string;
  entry_url : string
}.

Record Results := {
  r_username : string;
  checks_performed : Z;
  platforms_checked : dict Entry;
  summary : dict Z;
  warnings : list string
}.

(** State and exceptions: the state reached when an exception is raised is
    kept, as Python keeps the mutations made before a [raise]. *)
Definition M (A : Type) : Type := Results -> result A * Results.

Definition ret {A} (a : A) : M A := fun s => (Return a, s).

Definition bind {A B} (m : M A) (f : A -> M B) : M B :=
  fun s =>
    match m s with
    | (Return a, s') => f a s'
    | (Raise e, s') => (Raise e, s')
    end.

Definition lift {A} (x : result A) : M A := fun s => (x, s).

(** [try: body  except Exception as e: handler e] *)
Definition try_except {A} (body : M A) (handler : exception -> M A) : M A :=
  fun s =>
    match body s with
    | (Return a, s') => (Return a, s')
    | (Raise e, s') => handler e s'
    end.

Notation "x <- m ;; k" := (bind m (fun x => k))
  (at level 61, m at next level, right associativity).
Notation "' pat <- m ;; k" := (bind m (fun x => match x with pat => k end))
  (at level 61, pat pattern, m at next level, right associativity).
Notation "m ;;; k" := (bind m (fun _ => k))
  (at level 61, right associativity).

(** [for x in l: body x] *)
Fixpoint for_each {A} (l : list A) (body : A -> M unit) : M unit :=
  match l with
  | [] => ret tt
  | x :: l' => body x ;;; for_each l' body
  end%list.

(** [results['platforms_checked'][platform] = entry] *)
Definition set_platform (platform : string) (entry : Entry) : M unit :=
  fun s =>
    (Return tt,
     {| r_username := r_username s;
        checks_performed := checks_performed s;
        platforms_checked := dict_set platform entry (platforms_checked s);
        summary := summary s;
        warnings := warnings s |}).

(** [results['summary'][key] += 1], a [KeyError] when the key is missing. *)
Definition incr_summary (key : string) : M unit :=
  fun s =>
    match dict_get key (summary s) with
    | None => (Raise (KeyError key), s)
    | Some n =>
        (Return tt,
         {| r_username := r_username s;
            checks_performed := checks_performed s;
            platforms_checked := platforms_checked s;
            summary := dict_set key (n + 1)%Z (summary s);
            warnings := warnings s |})
    end.

(** [d[k]] as a call that may raise. *)
Definition getitem {V} (d : dict V) (k : string) : result V :=
  match dict_get k d with
  | Some v => Return v
  | None => Raise (KeyError k)
  end.

(* ================================================================== *)
(** ** The orchestrator *)

(** A future, identified with the platform it was submitted for
    ([future_to_platform[future]]) and with what [future.result()] gives: the
    task's return value, or the exception the task raised. *)
Definition future : Type := string * result outcome.

(** The thread pool together with [as_completed]: from the pool width and the
    futures in submission order to the futures in completion order. *)
Definition scheduler : Type := nat -> list future -> list future.

(** The post-sort of [platforms_checked] (lines 104 to 111). *)
Definition sort_platforms (checked : dict Entry) : dict Entry :=
  fold_left
    (fun sorted_platforms st =>
       fold_left
         (fun sorted_platforms '(platform, data) =>
            if String.eqb (status data) st
            then dict_set platform data sorted_platforms
            else sorted_platforms)
         checked sorted_platforms)
    ["found"; "not_found"; "error"]%list []%list.

Section Analyze.
Variable world : World.
Variable as_completed : scheduler.
Variable self : UsernameEye.

(** [self.platforms[platform].format(username=username)], the [url] field
    of an entry. *)
Definition entry_url_for (platform username : string) : result string :=
  rbind (getitem (platforms self) platform)
        (fun template => format template username).

(** The body of the [for future in as_completed(...)] loop. *)
Definition collect (username : string) (verbose : bool) (fut : future)
  : M unit :=
  let platform := fst fut in
  try_except
    ('(st, response_time, details) <- lift (snd fut) ;;
     u <- lift (entry_url_for platform username) ;;
     set_platform platform
       {| status := st; response_time_ms := Some response_time;
          error := None; entry_url := u |} ;;;
     if String.eqb st "found" then incr_summary "found"
     else if String.eqb st "not_found" then incr_summary "not_found"
     else incr_summary "errors")
    (fun e =>
     u <- lift (entry_url_for platform username) ;;
     set_platform platform
       {| status := "error"; response_time_ms := None;
          error := Some (str e); entry_url := u |} ;;;
     incr_summary "errors").

(** [future_to_platform]: one future per item of [self.platforms], in
    submission order. *)
Definition future_to_platform (username : string) : list future :=
  map (fun '(platform, url) =>
         (platform,
          _check_single_platform world self platform url username))
      (platforms self).

(** [UsernameEye.analyze], with the width of the pool as a parameter. *)
Definition analyze_with (max_workers : nat) (username : string)
  (verbose : bool) : result Results :=
  let results :=
    {| r_username := username;
       checks_performed := Z.of_nat (List.length (platforms self));
       platforms_checked := []%list;
       summary := [("found", 0%Z); ("not_found", 0%Z); ("errors", 0%Z)]%list;
       warnings :=
         ["Presence does not imply ownership";
          "Accounts may be impersonations";
          "Always verify through official channels"]%list |} in
  match for_each (as_completed max_workers (future_to_platform username))
                 (collect username verbose) results with
  | (Raise e, _) => Raise e
  | (Return _, results) =>
      Return
        {| r_username := r_username results;
           checks_performed := checks_performed results;
           platforms_checked := sort_platforms (platforms_checked results);
           summary := summary results;
           warnings := warnings results |}
  end.

(** [UsernameEye.analyze]: the source fixes [max_workers=10]. *)
Definition analyze (username : string) (verbose : bool) : result Results :=
  analyze_with 10 username verbose.

End Analyze.

(* ================================================================== *)
(** ** Definitions used to state the properties *)

(** The classifier with the platform-specific checks of lines 184 to 191
    removed; everything else is [_analyze_response] line for line. *)
Definition _analyze_response_without_markers (platform : string)
  (response : Response) : string :=
  if (status_code response =? 404)%Z then "not_found" else
  let final_url := lower (url response) in
  if any_in login_indicators final_url then "not_found" else
  let content_lower := lower (text response) in
  if any_in not_found_indicators content_lower then "not_found" else
  if (status_code response =? 200)%Z then "found" else
  "unknown".

(** The path of a URL, for the wording of the specification (the final URL's
    path); the source has no such notion and inspects the whole URL.  What
    follows the first [://] loses its authority (up to the first [/], [?] or
    [#]); the path ends before the first [?] or [#]. *)
Fixpoint skip (n : nat) (s : string) : string :=
  match n, s with
  | S n', String _ s' => skip n' s'
  | _, _ => s
  end.

Fixpoint after_marker (marker s : string) : option string :=
  if startswith marker s then Some (skip (String.length marker) s)
  else match s with
       | EmptyString => None
       | String _ s' => after_marker marker s'
       end.

Fixpoint drop_until (stop : ascii -> bool) (s : string) : string :=
  match s with
  | EmptyString => EmptyString
  | String c s' => if stop c then s else drop_until stop s'
  end.

Fixpoint take_until (stop : ascii -> bool) (s : string) : string :=
  match s with
  | EmptyString => EmptyString
  | String c s' => if stop c then EmptyString else String c (take_until stop s')
  end.

Definition url_path (u : string) : string :=
  let rest :=
    match after_marker "://" u with
    | Some r => drop_until (fun c => mem_char c "/?#") r
    | None => u
    end in
  take_until (fun c => mem_char c "?#") rest.

(** What the loop body does to the state, written without the monad: the
    entry recorded for a future and the counter it increments. *)
Definition entry_of (u : string) (r : result outcome) : Entry :=
  match r with
  | Return (st, response_time, _) =>
      {| status := st; response_time_ms := Some response_time;
         error := None; entry_url := u |}
  | Raise e =>
      {| status := "error"; response_time_ms := None;
         error := Some (str e); entry_url := u |}
  end.

Definition counter_of (r : result outcome) : string :=
  match r with
  | Return (st, _, _) =>
      if String.eqb st "found" then "found"
      else if String.eqb st "not_found" then "not_found"
      else "errors"
  | Raise _ => "errors"
  end.

(** How many futures of [l] increment the counter [key]. *)
Definition tally (key : string) (l : list future) : Z :=
  Z.of_nat (List.length (filter (fun f => String.eqb (counter_of (snd f)) key) l)).

(** Entries with a given status, in dictionary order. *)
Definition with_status (st : string) (d : dict Entry) : dict Entry :=
  filter (fun kv => String.eqb (status (snd kv)) st) d.

Definition hit (key : string) (r : result outcome) : Z :=
  if String.eqb (counter_of r) key then 1%Z else 0%Z.

(** The [url] field recorded for a platform (empty when the lookup or the
    formatting raises, which a well-formed registry excludes). *)
Definition url_of (self : UsernameEye) (username platform : string) : string :=
  match entry_url_for self platform username with
  | Return u => u
  | Raise _ => EmptyString
  end.

(** The item a future leaves in [platforms_checked] before the post-sort. *)
Definition recorded (self : UsernameEye) (username : string) (fut : future)
  : string * Entry :=
  (fst fut, entry_of (url_of self username (fst fut)) (snd fut)).

(** The statuses the post-sort looks for. *)
Definition retained (st : string) : bool :=
  String.eqb st "found" || String.eqb st "not_found" || String.eqb st "error".

(** The dictionary the post-sort builds, as three groups. *)
Definition grouped (d : dict Entry) : dict Entry :=
  (with_status "found" d ++ with_status "not_found" d
   ++ with_status "error" d)%list.

(** The status under which a future is recorded, and whether it is
    neither [found] nor [not_found]. *)
Definition status_of (r : result outcome) : string :=
  status (entry_of EmptyString r).

Definition is_other (r : result outcome) : bool :=
  negb (String.eqb (status_of r) "found")
  && negb (String.eqb (status_of r) "not_found").

Definition count_where (P : result outcome -> bool) (l : list future) : Z :=
  Z.of_nat (List.length (filter (fun f => P (snd f)) l)).

(** A registry is well formed for a username when it is a dictionary (no key
    twice) whose templates all format. *)
Definition well_formed (self : UsernameEye) (username : string) : Prop :=
  NoDup (keys (platforms self)) /\
  Forall (fun kv => exists u, format (snd kv) username = Return u)
         (platforms self).

(** A scheduler is fair when every submitted future completes exactly once,
    whatever the width of the pool. *)
Definition fair (sched : scheduler) : Prop :=
  forall w l, Permutation (sched w l) l.

(** Stub collaborators for the concrete runs below. *)
Definition fifo : scheduler := fun _ l => l.
Definition lifo : scheduler := fun _ l => rev l.

Definition page (code : Z) (u body : string) : Response :=
  {| status_code := code; url := u; text := body |}.

Definition world_all_ok : World :=
  {| requests_get := fun u _ _ _ => Return (page 200 u "hello");
     elapsed := fun _ => 1234%Z |}.

Definition world_all_timeout : World :=
  {| requests_get := fun u _ _ _ => Raise (ReadTimeout "Read timed out.");
     elapsed := fun _ => 0%Z |}.

(** Five stubbed platforms: three answer 200 with a plain page, one answers
    404 and one times out. *)
Definition five_platforms : UsernameEye :=
  {| headers := []%list;
     timeout := 10;
     platforms :=
       [("One", "https://one.example/{username}");
        ("Two", "https://two.example/{username}");
        ("Three", "https://three.example/{username}");
        ("Four", "https://four.example/{username}");
        ("Five", "https://five.example/{username}")]%list |}.

Definition world_five : World :=
  {| requests_get := fun u _ _ _ =>
       if contains "four.example" u then Return (page 404 u "gone")
       else if contains "five.example" u then Raise (ReadTimeout "Read timed out.")
       else Return (page 200 u "profile");
     elapsed := fun _ => 250%Z |}.

(** A world that refuses every request with the requested URL as message, so
    that the status of a task shows the URL that was fetched. *)
Definition world_echo : World :=
  {| requests_get := fun u _ _ _ => Raise (OtherException u);
     elapsed := fun _ => 0%Z |}.

Definition world_mixed : World :=
  {| requests_get := fun u _ _ _ =>
       if contains "github" u then Return (page 200 u "hello")
       else if contains "twitter" u then Return (page 404 u "hello")
       else if contains "reddit" u then Raise (ConnectTimeout "timed out")
       else if contains "tiktok" u then Raise (ConnectionError "refused")
       else if contains "gitlab" u then Return (page 500 u "oops")
       else if contains "twitch" u then Raise (OtherException "bad TLS record")
       else Return (page 200 u "welcome");
     elapsed := fun _ => 1234%Z |}.

(* ================================================================== *)
(** ** Definitions for the further properties *)

(** [all(P(c) for c in s)] *)
Fixpoint all_chars (P : ascii -> bool) (s : string) : bool :=
  match s with
  | EmptyString => true
  | String c s' => P c && all_chars P s'
  end.

(** The characters [quote] copies: the always-safe ones and its [safe='/']. *)
Definition is_safe_char (c : ascii) : bool :=
  always_safe c || mem_char c "/".

(** The characters [quote] can write. *)
Definition is_quoted_char (c : ascii) : bool :=
  is_safe_char c || Ascii.eqb c "%".

(** Lowercase letters and the slash: the characters of the login
    indicators. *)
Definition is_plain_char (c : ascii) : bool :=
  let n := N_of_ascii c in ((97 <=? n) && (n <=? 122))%N || Ascii.eqb c "/".

(** The value of an uppercase hexadecimal digit. *)
Definition unhex (c : ascii) : N :=
  let n := N_of_ascii c in if (n <? 58)%N then (n - 48)%N else (n - 55)%N.

(** A decoder for what [quote] writes (the inverse direction of
    [urllib.parse]); the module never calls it, it serves to state that the
    encoding loses nothing. *)
Fixpoint unquote (s : string) : string :=
  match s with
  | EmptyString => EmptyString
  | String c rest =>
      if Ascii.eqb c "%" then
        match rest with
        | String h (String l rest') =>
            String (ascii_of_N (16 * unhex h + unhex l)) (unquote rest')
        | _ => String c (unquote rest)
        end
      else String c (unquote rest)
  end.

(** The part of a template before its first brace. *)
Definition template_prefix (template : string) : string :=
  take_until (fun c => Ascii.eqb c "{" || Ascii.eqb c "}") template.

(* ================================================================== *)
(** ** Python values and the process around the module

    The callers of [analyze] treat its result as a plain Python value: the
    driver (src/iphoenix.py) stores it and hands it to the formatter
    (src/utils/formatter.py), which inspects it with [in], [[]], [.get] and
    [.items].  [pyval] holds the values that occur; every dictionary of the
    program has string keys. *)

#[warnings="-register-all"]
Inductive pyval : Type :=
| PNone
| PBool (b : bool)
| PInt (n : Z)
| PFloat (hundredths : Z)
| PStr (s : string)
| PList (items : list pyval)
| PDict (items : list (string * pyval)).

(** [type(v).__name__] *)
Definition type_name (v : pyval) : string :=
  match v with
  | PNone => "NoneType"
  | PBool _ => "bool"
  | PInt _ => "int"
  | PFloat _ => "float"
  | PStr _ => "str"
  | PList _ => "list"
  | PDict _ => "dict"
  end.

(** An [AttributeError] or a [TypeError]: classes without a handler of their
    own anywhere in the program, so [OtherException] with the message. *)
Definition AttributeError (v : pyval) (attribute : string) : exception :=
  OtherException ("'" ++ type_name v ++ "' object has no attribute '"
                  ++ attribute ++ "'").

Definition TypeError (msg : string) : exception := OtherException msg.

(** [key in v] for a string [key]. *)
Definition py_in (key : string) (v : pyval) : result bool :=
  match v with
  | PDict items => Return (match dict_get key items with
                           | Some _ => true
                           | None => false
                           end)
  | PStr s => Return (contains key s)
  | PList items =>
      Return (existsb (fun x => match x with
                                | PStr s => String.eqb s key
                                | _ => false
                                end) items)
  | _ => Raise (TypeError ("argument of type '" ++ type_name v
                           ++ "' is not iterable"))
  end.

(** [v[key]] for a string [key]. *)
Definition py_getitem (v : pyval) (key : string) : result pyval :=
  match v with
  | PDict items => getitem items key
  | PStr _ => Raise (TypeError "string indices must be integers")
  | PList _ => Raise (TypeError "list indices must be integers or slices, not str")
  | _ => Raise (TypeError ("'" ++ type_name v ++ "' object is not subscriptable"))
  end.

(** [v.get(key, default)] *)
Definition py_get (v : pyval) (key : string) (default : pyval) : result pyval :=
  match v with
  | PDict items => Return (match dict_get key items with
                           | Some x => x
                           | None => default
                           end)
  | _ => Raise (AttributeError v "get")
  end.

(** [v.items()] *)
Definition py_items (v : pyval) : result (list (string * pyval)) :=
  match v with
  | PDict items => Return items
  | _ => Raise (AttributeError v "items")
  end.

(** [v > 0] *)
Definition py_positive (v : pyval) : result bool :=
  match v with
  | PInt n => Return (0 <? n)%Z
  | PFloat h => Return (0 <? h)%Z
  | PBool b => Return b
  | _ => Raise (TypeError ("'>' not supported between instances of '"
                           ++ type_name v ++ "' and 'int'"))
  end.

(** [v == 'text'] for a string literal. *)
Definition py_eq_str (v : pyval) (text : string) : bool :=
  match v with
  | PStr s => String.eqb s text
  | _ => false
  end.

(** [str(v)], as an f-string writes a value.  The text of a float, a list
    or a dictionary is left to [repr]. *)
Definition py_str (repr : pyval -> string) (v : pyval) : string :=
  match v with
  | PStr s => s
  | PInt n => DecimalString.NilZero.string_of_int (Z.to_int n)
  | PBool true => "True"
  | PBool false => "False"
  | PNone => "None"
  | _ => repr v
  end.

(** The dictionary [analyze] returns, as a Python value. *)
Definition entry_to_python (e : Entry) : pyval :=
  PDict ([("status", PStr (status e))]
         ++ match response_time_ms e with
            | Some t => [("response_time_ms", PFloat t)]
            | None => []
            end
         ++ match error e with
            | Some m => [("error", PStr m)]
            | None => []
            end
         ++ [("url", PStr (entry_url e))])%list.

Definition to_python (r : Results) : pyval :=
  PDict [("username", PStr (r_username r));
         ("checks_performed", PInt (checks_performed r));
         ("platforms_checked",
          PDict (map (fun kv => (fst kv, entry_to_python (snd kv)))
                     (platforms_checked r)));
         ("summary", PDict (map (fun kv => (fst kv, PInt (snd kv))) (summary r)));
         ("warnings", PList (map PStr (warnings r)))]%list.

(** [s * n] and the newline. *)
Fixpoint times (s : string) (n : nat) : string :=
  match n with
  | O => EmptyString
  | S n' => s ++ times s n'
  end.

Definition nl : string := String "010"%char EmptyString.

(** [s.center(width, fill)] *)
Definition center (s : string) (width : nat) (fill : string) : string :=
  let len := String.length s in
  if (width <=? len)%nat then s
  else
    let marg := (width - len)%nat in
    let left := (marg / 2 + Nat.land marg (Nat.land width 1))%nat in
    times fill left ++ s ++ times fill (marg - left).

(** The ANSI colour table of the formatter, a class whose attributes
    [format_output] overwrites when colours are off. *)
Record Colors := {
  HEADER : string; BLUE : string; CYAN : string; GREEN : string;
  YELLOW : string; RED : string; BOLD : string; UNDERLINE : string;
  ENDC : string     (* the attribute END *)
}.

Definition esc (code : string) : string :=
  String "027"%char ("[" ++ code ++ "m").

Definition default_colors : Colors :=
  {| HEADER := esc "95"; BLUE := esc "94"; CYAN := esc "96";
     GREEN := esc "92"; YELLOW := esc "93"; RED := esc "91";
     BOLD := esc "1"; UNDERLINE := esc "4"; ENDC := esc "0" |}.

Definition no_colors : Colors :=
  {| HEADER := EmptyString; BLUE := EmptyString; CYAN := EmptyString;
     GREEN := EmptyString; YELLOW := EmptyString; RED := EmptyString;
     BOLD := EmptyString; UNDERLINE := EmptyString; ENDC := EmptyString |}.

(** [self.case_data] of the driver. *)
Record CaseData := {
  tool : string;
  version : string;
  timestamp : option string;
  input : dict pyval;
  findings : dict pyval;
  disclaimer : string
}.

(** The state of the process: the colour table, what was printed (one item
    per [print] call, [analyze]'s own progress lines left out as before),
    the case data and the case files written. *)
Record Process := {
  colors : Colors;
  stdout : list string;
  case_data : CaseData;
  written : list (string * CaseData)
}.

Definition IO (A : Type) : Type := Process -> result A * Process.

Definition io_ret {A} (a : A) : IO A := fun p => (Return a, p).

Definition io_bind {A B} (m : IO A) (f : A -> IO B) : IO B :=
  fun p =>
    match m p with
    | (Return a, p') => f a p'
    | (Raise e, p') => (Raise e, p')
    end.

Definition io_lift {A} (x : result A) : IO A := fun p => (x, p).

Notation "x <~ m ;; k" := (io_bind m (fun x => k))
  (at level 61, m at next level, right associativity).
Notation "m ;;> k" := (io_bind m (fun _ => k))
  (at level 61, right associativity).

(** [for x in l: body x] *)
Fixpoint io_for_each {A} (l : list A) (body : A -> IO unit) : IO unit :=
  match l with
  | [] => io_ret tt
  | x :: l' => body x ;;> io_for_each l' body
  end%list.

(** [print(line)] *)
Definition print (line : string) : IO unit :=
  fun p =>
    (Return tt,
     {| colors := colors p; stdout := (stdout p ++ [line])%list;
        case_data := case_data p; written := written p |}).

(** Reading an attribute of [Colors] at the time of the call. *)
Definition color (attribute : Colors -> string) : IO string :=
  fun p => (Return (attribute (colors p)), p).

Definition set_colors (c : Colors) : IO unit :=
  fun p =>
    (Return tt,
     {| colors := c; stdout := stdout p;
        case_data := case_data p; written := written p |}).

Definition update_case_data (f : CaseData -> CaseData) : IO unit :=
  fun p =>
    (Return tt,
     {| colors := colors p; stdout := stdout p;
        case_data := f (case_data p); written := written p |}).

(** What the program takes from outside: the collaborators of [analyze],
    the clock, the three other analysis modules with the formatters of their
    results, the text of values that [py_str] leaves open, and the file
    system ([str(Path('cases') / filename)], and the error that creating the
    directory or writing the file meets, if any). *)
Record Env := {
  env_world : World;
  env_as_completed : scheduler;
  utcnow_isoformat : string;
  image_analyze : string -> bool -> IO pyval;
  email_analyze : string -> bool -> IO pyval;
  phone_analyze : string -> bool -> IO pyval;
  _format_image_results : pyval -> IO unit;
  _format_email_results : pyval -> IO unit;
  _format_phone_results : pyval -> IO unit;
  repr : pyval -> string;
  case_path : string -> string;
  write_error : string -> option exception
}.

(* ------------------------------------------------------------------ *)
(** *** src/utils/formatter.py *)

(** [_format_username_results] *)
Definition _format_username_results (env : Env) (results : pyval) : IO unit :=
  bold <~ color BOLD ;;
  name <~ io_lift (py_get results "username" (PStr "N/A")) ;;
  endc <~ color ENDC ;;
  print (bold ++ "Username Analysis: " ++ py_str (repr env) name ++ endc) ;;>
  cyan <~ color CYAN ;;
  print (nl ++ cyan ++ "Summary:" ++ endc) ;;>
  summary_ <~ io_lift (py_get results "summary" (PDict []%list)) ;;
  green <~ color GREEN ;;
  found <~ io_lift (py_get summary_ "found" (PInt 0)) ;;
  print ("  Found on: " ++ green ++ py_str (repr env) found ++ " platforms" ++ endc) ;;>
  not_found <~ io_lift (py_get summary_ "not_found" (PInt 0)) ;;
  print ("  Not found on: " ++ py_str (repr env) not_found ++ " platforms") ;;>
  errors <~ io_lift (py_get summary_ "errors" (PInt 0)) ;;
  some_errors <~ io_lift (py_positive errors) ;;
  red <~ color RED ;;
  errors' <~ io_lift (py_get summary_ "errors" (PInt 0)) ;;
  print ("  Errors: " ++ (if some_errors then red else EmptyString)
         ++ py_str (repr env) errors' ++ " platforms" ++ endc) ;;>
  listed <~ io_lift (py_in "platforms_checked" results) ;;
  if listed then
    print (nl ++ cyan ++ "Platform Details:" ++ endc) ;;>
    checked <~ io_lift (py_getitem results "platforms_checked") ;;
    items <~ io_lift (py_items checked) ;;
    found_platforms <~
      io_lift
        (fold_left
           (fun acc kv =>
              rbind acc (fun found_platforms =>
              rbind (py_get (snd kv) "status" PNone) (fun st =>
              Return (if py_eq_str st "found"
                      then (found_platforms ++ [kv])%list
                      else found_platforms))))
           items (Return []%list)) ;;
    match found_platforms with
    | []%list => io_ret tt
    | _ =>
        print (nl ++ "  " ++ green ++ bold ++ "FOUND:" ++ endc) ;;>
        io_for_each found_platforms
          (fun kv =>
             u <~ io_lift (py_get (snd kv) "url" (PStr EmptyString)) ;;
             print ("    • " ++ fst kv ++ ": " ++ py_str (repr env) u))
    end
  else io_ret tt.

(** [format_output] *)
Definition format_output (env : Env) (results : pyval) (no_color : bool)
  : IO unit :=
  (if no_color then set_colors no_colors else io_ret tt) ;;>
  print (nl ++ times "=" 60) ;;>
  bold <~ color BOLD ;;
  header <~ color HEADER ;;
  endc <~ color ENDC ;;
  print (bold ++ header ++ "ANALYSIS RESULTS" ++ endc) ;;>
  print (times "=" 60) ;;>
  (is_image <~ io_lift (py_in "image" results) ;;
   if is_image then
     v <~ io_lift (py_getitem results "image") ;; _format_image_results env v
   else
   is_username <~ io_lift (py_in "username" results) ;;
   if is_username then
     v <~ io_lift (py_getitem results "username") ;;
     _format_username_results env v
   else
   is_email <~ io_lift (py_in "email" results) ;;
   if is_email then
     v <~ io_lift (py_getitem results "email") ;; _format_email_results env v
   else
   is_phone <~ io_lift (py_in "phone" results) ;;
   if is_phone then
     v <~ io_lift (py_getitem results "phone") ;; _format_phone_results env v
   else io_ret tt) ;;>
  print (nl ++ times "=" 60) ;;>
  yellow <~ color YELLOW ;;
  print (yellow ++ bold ++ "ETHICAL USE REMINDER:" ++ endc) ;;>
  print (times "-" 60) ;;>
  print "• Information shown is PUBLICLY available only" ;;>
  print "• Does NOT verify identity or ownership" ;;>
  print "• Use for research and awareness only" ;;>
  print "• Respect privacy and applicable laws" ;;>
  print (times "=" 60).

(* ------------------------------------------------------------------ *)
(** *** src/utils/disclaimer.py *)

Definition disclaimer_text : string := "
╔══════════════════════════════════════════════════════════════╗
║                     iPhoenix OSINT Tool                       ║
║                    Ethical Use Required                      ║
╚══════════════════════════════════════════════════════════════╝

IMPORTANT LEGAL AND ETHICAL NOTICE:

1. iPhoenix analyzes PUBLICLY AVAILABLE INFORMATION ONLY.
2. It does NOT:
   - Hack, crack, or bypass security
   - Access private accounts or data
   - Identify individuals or reveal private information
   - Perform facial recognition
   - Track locations or movements
   - Claim ownership of accounts or content

3. Intended use cases:
   - Cybersecurity research and education
   - Fraud and scam investigation
   - Journalistic research (public figures/organizations)
   - Digital footprint awareness

4. Prohibited uses:
   - Harassment, stalking, or doxxing
   - Identity theft or fraud
   - Unauthorized surveillance
   - Violating terms of service of any platform

5. You are responsible for:
   - Complying with all applicable laws
   - Respecting privacy and consent
   - Using information ethically
   - Verifying information through official channels

By using iPhoenix, you agree to use it only for ethical,
legal purposes and to take full responsibility for your actions.

Type 'AGREE' to continue: ".

(** [display_disclaimer] *)
Definition display_disclaimer : IO unit :=
  print disclaimer_text ;;>
  print (nl ++ times "=" 60) ;;>
  print "[iPhoenix] Initializing ethical OSINT investigation..." ;;>
  print (times "=" 60 ++ nl).

(* ------------------------------------------------------------------ *)
(** *** src/iphoenix.py *)

(** The namespace [parse_arguments] returns. *)
Record Args := {
  arg_image : option string;
  arg_username : option string;
  arg_email : option string;
  arg_phone : option string;
  arg_case : option string;
  arg_verbose : bool;
  arg_no_color : bool
}.

(** The truth value of an argument: absent or empty is false. *)
Definition given (a : option string) : bool :=
  match a with
  | Some s => negb (String.eqb s EmptyString)
  | None => false
  end.

Definition value_of (a : option string) : string :=
  match a with
  | Some s => s
  | None => EmptyString
  end.

(** [iPhoenix.__init__]: the initial case data. *)
Definition initial_case_data : CaseData :=
  {| tool := "iPhoenix";
     version := "1.0.0";
     timestamp := None;
     input := []%list;
     findings := []%list;
     disclaimer := "This report contains publicly available information only. It does not claim identity, ownership, or location of any individual." |}.

Definition initial_process : Process :=
  {| colors := default_colors; stdout := []%list;
     case_data := initial_case_data; written := []%list |}.

Definition set_input (key : string) (v : pyval) : IO unit :=
  update_case_data (fun c =>
    {| tool := tool c; version := version c; timestamp := timestamp c;
       input := dict_set key v (input c); findings := findings c;
       disclaimer := disclaimer c |}).

Definition set_finding (key : string) (v : pyval) : IO unit :=
  update_case_data (fun c =>
    {| tool := tool c; version := version c; timestamp := timestamp c;
       input := input c; findings := dict_set key v (findings c);
       disclaimer := disclaimer c |}).

Definition set_timestamp (t : string) : IO unit :=
  update_case_data (fun c =>
    {| tool := tool c; version := version c; timestamp := Some t;
       input := input c; findings := findings c;
       disclaimer := disclaimer c |}).

(** The four lines every [run_..._analysis] starts with. *)
Definition banner (title target : string) : IO unit :=
  print (nl ++ "[" ++ center "iPhoenix" 50 "=" ++ "]") ;;>
  print title ;;>
  print ("Target: " ++ target) ;;>
  print (times "-" 50).

(** [iPhoenix.run_username_analysis] *)
Definition run_username_analysis (env : Env) (username : string)
  (verbose : bool) : IO pyval :=
  banner "[Username Analysis Module]" username ;;>
  let username_eye := __init__ in
  results <~ io_lift (analyze (env_world env) (env_as_completed env)
                              username_eye username verbose) ;;
  set_finding "username" (to_python results) ;;>
  io_ret (to_python results).

(** [iPhoenix.run_image_analysis], [run_email_analysis] and
    [run_phone_analysis], whose modules are collaborators. *)
Definition run_image_analysis (env : Env) (image_path : string)
  (verbose : bool) : IO pyval :=
  banner "[Image Analysis Module]" image_path ;;>
  results <~ image_analyze env image_path verbose ;;
  set_finding "image" results ;;>
  io_ret results.

Definition run_email_analysis (env : Env) (email : string)
  (verbose : bool) : IO pyval :=
  banner "[Email Analysis Module]" email ;;>
  results <~ email_analyze env email verbose ;;
  set_finding "email" results ;;>
  io_ret results.

Definition run_phone_analysis (env : Env) (phone : string)
  (verbose : bool) : IO pyval :=
  banner "[Phone Analysis Module]" phone ;;>
  results <~ phone_analyze env phone verbose ;;
  set_finding "phone" results ;;>
  io_ret results.

(** [s.endswith(suffix)] *)
Fixpoint endswith (s suffix : string) : bool :=
  String.eqb s suffix ||
  match s with
  | EmptyString => false
  | String _ s' => endswith s' suffix
  end.

(** [iPhoenix.save_case_file]: creating the directory and writing the file
    are one step of the file system, which may fail. *)
Definition save_case_file (env : Env) (filename : string) : IO string :=
  let filename := if endswith filename ".json" then filename
                  else filename ++ ".json" in
  let path := case_path env filename in
  match write_error env path with
  | Some e => io_lift (Raise e)
  | None =>
      (fun p =>
         (Return tt,
          {| colors := colors p; stdout := stdout p; case_data := case_data p;
             written := (written p ++ [(path, case_data p)])%list |})) ;;>
      print (nl ++ "[✓] Case saved to: " ++ path) ;;>
      io_ret path
  end.

(** The [try] block of [main].  [results] is a local variable that stays
    unbound when no branch is taken. *)
Definition main_body (env : Env) (args : Args) : IO unit :=
  results <~
    (if given (arg_image args) then
       set_input "type" (PStr "image") ;;>
       set_input "value" (PStr (value_of (arg_image args))) ;;>
       r <~ run_image_analysis env (value_of (arg_image args)) (arg_verbose args) ;;
       io_ret (Some r)
     else if given (arg_username args) then
       set_input "type" (PStr "username") ;;>
       set_input "value" (PStr (value_of (arg_username args))) ;;>
       r <~ run_username_analysis env (value_of (arg_username args))
              (arg_verbose args) ;;
       io_ret (Some r)
     else if given (arg_email args) then
       set_input "type" (PStr "email") ;;>
       set_input "value" (PStr (value_of (arg_email args))) ;;>
       r <~ run_email_analysis env (value_of (arg_email args)) (arg_verbose args) ;;
       io_ret (Some r)
     else if given (arg_phone args) then
       set_input "type" (PStr "phone") ;;>
       set_input "value" (PStr (value_of (arg_phone args))) ;;>
       r <~ run_phone_analysis env (value_of (arg_phone args)) (arg_verbose args) ;;
       io_ret (Some r)
     else io_ret None) ;;
  results <~
    io_lift (match results with
             | Some r => Return r
             | None => Raise (OtherException
                 "cannot access local variable 'results' where it is not associated with a value")
             end) ;;
  format_output env results (arg_no_color args) ;;>
  (if given (arg_case args)
   then save_case_file env (value_of (arg_case args)) ;;> io_ret tt
   else io_ret tt) ;;>
  print (nl ++ times "=" 50) ;;>
  print "[iPhoenix] Analysis complete" ;;>
  print (times "=" 50).

(** [iPhoenix.main] after [parse_arguments], returning the exit status of
    the process: 0 when it runs to its end, 1 through [sys.exit(1)] in the
    handler of [Exception].  A keyboard interrupt is outside the model. *)
Definition main (env : Env) (args : Args) (p : Process) : Z * Process :=
  match (display_disclaimer ;;>
         set_timestamp (utcnow_isoformat env)) p with
  | (Raise e, p') => (1%Z, p')
  | (Return _, p') =>
      match main_body env args p' with
      | (Return _, p'') => (0%Z, p'')
      | (Raise e, p'') =>
          (1%Z, snd (print (nl ++ "[✗] Error during analysis: " ++ str e) p''))
      end
  end.

(** The lines of a report, for stating what the formatter prints: the
    banner and the closing reminder of [format_output], and the lines of
    [_format_username_results] for a results dictionary, under the colour
    table [c]. *)
Definition banner_lines (c : Colors) : list string :=
  [nl ++ times "=" 60;
   BOLD c ++ HEADER c ++ "ANALYSIS RESULTS" ++ ENDC c;
   times "=" 60].

Definition reminder_lines (c : Colors) : list string :=
  [nl ++ times "=" 60;
   YELLOW c ++ BOLD c ++ "ETHICAL USE REMINDER:" ++ ENDC c;
   times "-" 60;
   "• Information shown is PUBLICLY available only";
   "• Does NOT verify identity or ownership";
   "• Use for research and awareness only";
   "• Respect privacy and applicable laws";
   times "=" 60].

Definition counter (r : Results) (key : string) : Z :=
  match dict_get key (summary r) with
  | Some n => n
  | None => 0%Z
  end.

Definition report_lines (env : Env) (c : Colors) (r : Results) : list string :=
  app
   [BOLD c ++ "Username Analysis: " ++ r_username r ++ ENDC c;
    nl ++ CYAN c ++ "Summary:" ++ ENDC c;
    "  Found on: " ++ GREEN c ++ py_str (repr env) (PInt (counter r "found"))
    ++ " platforms" ++ ENDC c;
    "  Not found on: " ++ py_str (repr env) (PInt (counter r "not_found"))
    ++ " platforms";
    "  Errors: " ++ (if (0 <? counter r "errors")%Z then RED c else EmptyString)
    ++ py_str (repr env) (PInt (counter r "errors")) ++ " platforms" ++ ENDC c;
    nl ++ CYAN c ++ "Platform Details:" ++ ENDC c]
   match with_status "found" (platforms_checked r) with
   | nil => nil
   | found =>
       cons (nl ++ "  " ++ GREEN c ++ BOLD c ++ "FOUND:" ++ ENDC c)
            (map (fun kv => "    • " ++ fst kv ++ ": " ++ entry_url (snd kv))
                 found)
   end.

(** A stub environment and a command line for the concrete runs. *)
Definition demo_env : Env :=
  {| env_world := world_all_ok; env_as_completed := fifo;
     utcnow_isoformat := "2024-05-01T12:00:00";
     image_analyze := fun _ _ => io_ret PNone;
     email_analyze := fun _ _ => io_ret PNone;
     phone_analyze := fun _ _ => io_ret PNone;
     _format_image_results := fun _ => io_ret tt;
     _format_email_results := fun _ => io_ret tt;
     _format_phone_results := fun _ => io_ret tt;
     repr := fun _ => "<value>";
     case_path := fun filename => "cases/" ++ filename;
     write_error := fun _ => None |}.

Definition demo_args : Args :=
  {| arg_image := None; arg_username := Some "alice";
     arg_email := None; arg_phone := None;
     arg_case := Some "case1"; arg_verbose := false;
     arg_no_color := false |}.

(* ================================================================== *)
(** ** Strings: substring and lowering lemmas *)

Lemma startswith_lower (p s : string) :
  startswith p s = true -> startswith (lower p) (lower s) = true.
Proof.
  revert s; induction p as [|a p IH]; intros [|b s]; simpl; try easy.
  intros H. apply andb_true_iff in H as [Hab Hps].
  apply Ascii.eqb_eq in Hab. subst b.
  now rewrite Ascii.eqb_refl, IH.
Qed.

Lemma contains_lower (needle hay : string) :
  contains needle hay = true -> contains (lower needle) (lower hay) = true.
Proof.
  induction hay as [|c hay IH]; simpl; intros H.
  - rewrite orb_false_r in H. apply startswith_lower in H. simpl in H.
    now rewrite H.
  - apply orb_true_iff in H as [H|H].
    + apply startswith_lower in H. simpl in H. now rewrite H.
    + rewrite (IH H). apply orb_true_r.
Qed.

Lemma startswith_app (p s t : string) :
  startswith p s = true -> startswith p (s ++ t) = true.
Proof.
  revert s; induction p as [|a p IH]; intros [|b s]; simpl; try easy.
  intros H. apply andb_true_iff in H as [Hab Hps].
  now rewrite Hab, IH.
Qed.

Lemma contains_app_l (needle s t : string) :
  contains needle s = true -> contains needle (s ++ t) = true.
Proof.
  induction s as [|c s IH]; intros H.
  - simpl in H. rewrite orb_false_r in H.
    destruct needle; [|discriminate].
    destruct t; reflexivity.
  - simpl in H. apply orb_true_iff in H as [H|H].
    + change (String c s ++ t) with (String c (s ++ t)).
      apply (startswith_app _ _ t) in H.
      change (String c s ++ t) with (String c (s ++ t)) in H.
      simpl. simpl in H. now rewrite H.
    + simpl. rewrite (IH H). apply orb_true_r.
Qed.

Lemma contains_app_r (needle s t : string) :
  contains needle t = true -> contains needle (s ++ t) = true.
Proof.
  intros H. induction s as [|c s IH]; simpl; [assumption|].
  rewrite IH. apply orb_true_r.
Qed.

Lemma lower_app (s t : string) : lower (s ++ t) = lower s ++ lower t.
Proof. induction s as [|c s IH]; simpl; [reflexivity | now rewrite IH]. Qed.

Lemma any_in_true (indicators : list string) (s : string) :
  any_in indicators s = true <->
  exists indicator, In indicator indicators /\ contains indicator s = true.
Proof. unfold any_in. apply existsb_exists. Qed.

(** Whatever is found in a contiguous part of a text is found in the text,
    before and after lowering. *)
Lemma any_in_part (indicators : list string) (a part b : string) :
  any_in indicators (lower part) = true ->
  any_in indicators (lower (a ++ part ++ b)) = true.
Proof.
  rewrite !any_in_true. intros (i & Hi & Hc). exists i. split; [assumption|].
  rewrite !lower_app. now apply contains_app_r, contains_app_l.
Qed.

Lemma skip_suffix (n : nat) (s : string) : exists a, s = a ++ skip n s.
Proof.
  revert s; induction n as [|n IH]; intros s.
  - exists EmptyString. now destruct s.
  - destruct s as [|c s]; [now exists EmptyString|].
    destruct (IH s) as [a Ha]. exists (String c a). simpl. now f_equal.
Qed.

Lemma after_marker_suffix (marker s r : string) :
  after_marker marker s = Some r -> exists a, s = a ++ r.
Proof.
  induction s as [|c s IH]; simpl.
  - destruct (startswith marker EmptyString); [|discriminate].
    intros [= <-]. apply skip_suffix.
  - destruct (startswith marker (String c s)).
    + intros [= <-]. apply skip_suffix.
    + intros H. destruct (IH H) as [a Ha]. exists (String c a).
      simpl. now f_equal.
Qed.

Lemma drop_until_suffix (stop : ascii -> bool) (s : string) :
  exists a, s = a ++ drop_until stop s.
Proof.
  induction s as [|c s [a Ha]]; [now exists EmptyString|].
  simpl. destruct (stop c).
  - now exists EmptyString.
  - exists (String c a). simpl. now f_equal.
Qed.

Lemma take_until_prefix (stop : ascii -> bool) (s : string) :
  exists b, s = take_until stop s ++ b.
Proof.
  induction s as [|c s [b Hb]]; [now exists EmptyString|].
  simpl. destruct (stop c).
  - now exists (String c s).
  - exists b. simpl. now f_equal.
Qed.

Lemma app_assoc_string (a b c : string) : (a ++ b) ++ c = a ++ b ++ c.
Proof. induction a as [|x a IH]; simpl; [reflexivity | now rewrite IH]. Qed.

(** The path is a contiguous part of the URL. *)
Lemma url_path_part (u : string) : exists a b, u = a ++ url_path u ++ b.
Proof.
  unfold url_path.
  destruct (after_marker "://" u) as [r|] eqn:Hm.
  - destruct (after_marker_suffix _ _ _ Hm) as [a Ha].
    destruct (drop_until_suffix (fun c => mem_char c "/?#") r) as [a' Ha'].
    destruct (take_until_prefix (fun c => mem_char c "?#")
                (drop_until (fun c => mem_char c "/?#") r)) as [b Hb].
    exists (a ++ a'), b.
    rewrite app_assoc_string, <- Hb, <- Ha'. exact Ha.
  - destruct (take_until_prefix (fun c => mem_char c "?#") u) as [b Hb].
    exists EmptyString, b. exact Hb.
Qed.

Lemma login_in_path_in_url (u : string) :
  any_in login_indicators (lower (url_path u)) = true ->
  any_in login_indicators (lower u) = true.
Proof.
  intros H. destruct (url_path_part u) as (a & b & Hu).
  rewrite Hu. now apply any_in_part.
Qed.

(* ================================================================== *)
(** ** The classifier: rule by rule *)

Lemma rule_404 (platform : string) (response : Response) :
  status_code response = 404%Z ->
  _analyze_response platform response = "not_found".
Proof. intros H. unfold _analyze_response. now rewrite H. Qed.

Lemma rule_login (platform : string) (response : Response) :
  any_in login_indicators (lower (url response)) = true ->
  _analyze_response platform response = "not_found".
Proof.
  intros H. unfold _analyze_response. rewrite H.
  now destruct (status_code response =? 404)%Z.
Qed.

Lemma rule_body (platform : string) (response : Response) :
  any_in not_found_indicators (lower (text response)) = true ->
  _analyze_response platform response = "not_found".
Proof.
  intros H. unfold _analyze_response. rewrite H.
  destruct (status_code response =? 404)%Z; [reflexivity|].
  now destruct (any_in login_indicators (lower (url response))).
Qed.

(** Past the three negative rules the verdict depends on the status alone. *)
Lemma rule_default (platform : string) (response : Response) :
  status_code response <> 404%Z ->
  any_in login_indicators (lower (url response)) = false ->
  any_in not_found_indicators (lower (text response)) = false ->
  _analyze_response platform response =
  if (status_code response =? 200)%Z then "found" else "unknown".
Proof.
  intros H404 Hlogin Hbody. unfold _analyze_response.
  apply Z.eqb_neq in H404. rewrite H404, Hlogin, Hbody.
  destruct (status_code response =? 200)%Z; [|now rewrite !andb_false_r].
  rewrite !andb_true_r.
  destruct (String.eqb platform "GitHub"); simpl.
  - destruct (contains is_verified_marker (text response)
              || contains login_marker (text response)); [reflexivity|].
    now destruct (String.eqb platform "Twitter" && _).
  - now destruct (String.eqb platform "Twitter" && _).
Qed.

(** C2 -- Rule precedence in the classifier.  A response with status 404 is
    [not_found] by its status alone, whatever its URL and body (so also when
    the body holds a not-found phrase).  A response with status 200 whose
    body contains the phrase [user not found] (as it stands or up to case) is
    [not_found] and not [found]; and when its URL carries no login indicator
    the phrase is what decides, since the same status and URL with an empty
    body are classified [found] by the default rule. *)
Theorem classifier_rule_precedence (platform : string) (response : Response) :
  (status_code response = 404%Z ->
   _analyze_response platform response = "not_found")
  /\
  (status_code response = 200%Z ->
   contains "user not found" (text response) = true \/
   contains "user not found" (lower (text response)) = true ->
   _analyze_response platform response = "not_found" /\
   _analyze_response platform response <> "found" /\
   (any_in login_indicators (lower (url response)) = false ->
    _analyze_response platform (page 200 (url response) EmptyString) = "found")).
Proof.
  split.
  - apply rule_404.
  - intros H200 Hbody.
    assert (Hlow : contains "user not found" (lower (text response)) = true).
    { destruct Hbody as [H|H]; [|exact H].
      apply contains_lower in H. exact H. }
    assert (Hnf : _analyze_response platform response = "not_found").
    { apply rule_body. apply any_in_true. exists "user not found".
      split; [|exact Hlow]. simpl. tauto. }
    split; [exact Hnf|]. split; [rewrite Hnf; discriminate|].
    intros Hlogin.
    rewrite rule_default; simpl; try reflexivity; try assumption.
    discriminate.
Qed.

Lemma classifier_rule_precedence_witness :
  _analyze_response "GitHub"
    (page 404 "https://github.com/alice" "Page not found") = "not_found"
  /\
  _analyze_response "GitHub"
    (page 200 "https://github.com/alice" "Sorry: User Not Found") = "not_found".
Proof.
  split.
  - apply (proj1 (classifier_rule_precedence "GitHub"
                    (page 404 "https://github.com/alice" "Page not found"))).
    reflexivity.
  - apply (proj2 (classifier_rule_precedence "GitHub"
                    (page 200 "https://github.com/alice" "Sorry: User Not Found"))).
    + reflexivity.
    + right. reflexivity.
Defined.

(** C6 -- Default-positive policy.  When no earlier rule matches (the final
    URL has no login indicator and the body no not-found phrase), a status of
    200 is classified [found], and a status that is neither 404 nor 200 is
    classified [unknown]. *)
Theorem default_positive_then_unknown (platform : string) (response : Response) :
  any_in login_indicators (lower (url response)) = false ->
  any_in not_found_indicators (lower (text response)) = false ->
  (status_code response = 200%Z ->
   _analyze_response platform response = "found")
  /\
  (status_code response <> 404%Z -> status_code response <> 200%Z ->
   _analyze_response platform response = "unknown").
Proof.
  intros Hlogin Hbody. split.
  - intros H200. rewrite rule_default; try assumption.
    + now rewrite H200.
    + rewrite H200. discriminate.
  - intros H404 H200. rewrite rule_default; try assumption.
    apply Z.eqb_neq in H200. now rewrite H200.
Qed.

Lemma default_positive_then_unknown_witness :
  _analyze_response "Reddit"
    (page 200 "https://reddit.com/user/alice" "hello") = "found"
  /\
  _analyze_response "Reddit"
    (page 500 "https://reddit.com/user/alice" "hello") = "unknown".
Proof.
  split.
  - apply (proj1 (default_positive_then_unknown "Reddit"
                    (page 200 "https://reddit.com/user/alice" "hello")
                    eq_refl eq_refl)).
    reflexivity.
  - apply (proj2 (default_positive_then_unknown "Reddit"
                    (page 500 "https://reddit.com/user/alice" "hello")
                    eq_refl eq_refl)); simpl; discriminate.
Defined.

(** C7 as stated fails: the pattern match is not confined to the path of the
    final URL.  The response below has status 200, a clean body and the path
    [/user], which holds no login indicator; the indicator [join] sits in
    the query string, and the classifier answers [not_found]. *)
Lemma login_match_outside_path :
  let response :=
    page 200 "https://news.ycombinator.com/user?id=joiner" "hello" in
  url_path (url response) = "/user" /\
  any_in login_indicators (lower (url_path (url response))) = false /\
  any_in not_found_indicators (lower (text response)) = false /\
  _analyze_response "HackerNews" response = "not_found".
Proof. repeat split. Qed.

(** C7, amended -- For every response whose status is not 404 and whose final
    URL contains, anywhere (authority, path or query) and up to case, one of
    the login indicators, the classifier returns [not_found]; this covers the
    case in which the path of the final URL contains the indicator.  The
    match is against the whole final URL: on a response with a clean body,
    [not_found] is returned exactly when the whole lowered URL contains an
    indicator. *)
Theorem login_redirect_rule (platform : string) (response : Response) :
  status_code response <> 404%Z ->
  (any_in login_indicators (lower (url response)) = true ->
   _analyze_response platform response = "not_found")
  /\
  (any_in login_indicators (lower (url_path (url response))) = true ->
   _analyze_response platform response = "not_found")
  /\
  (any_in not_found_indicators (lower (text response)) = false ->
   (_analyze_response platform response = "not_found" <->
    any_in login_indicators (lower (url response)) = true)).
Proof.
  intros H404. split; [apply rule_login|].
  split; [intros H; apply rule_login, login_in_path_in_url, H|].
  intros Hbody. split; [|apply rule_login].
  intros Hnf.
  destruct (any_in login_indicators (lower (url response))) eqn:Hlogin;
    [reflexivity|].
  rewrite rule_default in Hnf by assumption.
  now destruct (status_code response =? 200)%Z.
Qed.

Lemma login_redirect_rule_witness :
  _analyze_response "GitHub"
    (page 200 "https://github.com/Login?return_to=alice" "hello") = "not_found".
Proof.
  refine (proj1 (login_redirect_rule "GitHub"
                   (page 200 "https://github.com/Login?return_to=alice" "hello")
                   _) _).
  - simpl. discriminate.
  - reflexivity.
Defined.

(** C9 -- The platform-specific marker checks are redundant: the classifier
    with the GitHub and Twitter checks removed returns, on every platform and
    every response, what the classifier of the source returns. *)
Theorem platform_markers_redundant (platform : string) (response : Response) :
  _analyze_response platform response =
  _analyze_response_without_markers platform response.
Proof.
  unfold _analyze_response, _analyze_response_without_markers.
  destruct (status_code response =? 404)%Z; [reflexivity|].
  destruct (any_in login_indicators (lower (url response))); [reflexivity|].
  destruct (any_in not_found_indicators (lower (text response)));
    [reflexivity|].
  destruct (status_code response =? 200)%Z.
  - destruct (String.eqb platform "GitHub" && true && _); [reflexivity|].
    now destruct (String.eqb platform "Twitter" && true && _).
  - now rewrite !andb_false_r.
Qed.

(* ================================================================== *)
(** ** Dictionaries *)

Section DictFacts.
Context {V : Type}.
Implicit Types (d : dict V) (k : string) (v : V).

Lemma dict_set_fresh k v d :
  ~ In k (keys d) -> dict_set k v d = (d ++ [(k, v)])%list.
Proof.
  induction d as [|[k' v'] d IH]; simpl; intros Hk; [reflexivity|].
  destruct (String.eqb k' k) eqn:E.
  - apply String.eqb_eq in E. tauto.
  - rewrite IH; tauto.
Qed.

Lemma dict_get_in k v d :
  NoDup (keys d) -> In (k, v) d -> dict_get k d = Some v.
Proof.
  induction d as [|[k' v'] d IH]; simpl; intros Hnd Hin; [contradiction|].
  inversion Hnd as [|? ? Hk' Hd]; subst.
  destruct Hin as [[= -> ->]|Hin].
  - now rewrite String.eqb_refl.
  - destruct (String.eqb k' k) eqn:E; [|now apply IH].
    apply String.eqb_eq in E. subst k'.
    exfalso. apply Hk'. change k with (fst (k, v)). now apply in_map.
Qed.

Lemma dict_get_some_in k v d : dict_get k d = Some v -> In (k, v) d.
Proof.
  induction d as [|[k' v'] d IH]; simpl; [discriminate|].
  destruct (String.eqb k' k) eqn:E.
  - apply String.eqb_eq in E. intros [= ->]. left. now subst.
  - intros H. right. now apply IH.
Qed.

(** Two dictionaries with the same items in another order answer every
    lookup alike. *)
Lemma dict_get_perm k d d' :
  NoDup (keys d) -> Permutation d d' -> dict_get k d = dict_get k d'.
Proof.
  intros Hnd Hp.
  assert (Hnd' : NoDup (keys d')).
  { eapply Permutation_NoDup; [|exact Hnd]. now apply Permutation_map. }
  destruct (dict_get k d) as [v|] eqn:E.
  - symmetry. apply dict_get_in; [assumption|].
    eapply Permutation_in; [exact Hp|]. now apply dict_get_some_in.
  - destruct (dict_get k d') as [v|] eqn:E'; [|reflexivity].
    apply dict_get_some_in in E'.
    apply (Permutation_in _ (Permutation_sym Hp)) in E'.
    apply (dict_get_in _ _ _ Hnd) in E'. congruence.
Qed.

End DictFacts.

Lemma filter_perm {A} (f : A -> bool) (l l' : list A) :
  Permutation l l' -> Permutation (filter f l) (filter f l').
Proof.
  induction 1 as [|x l l' _ IH|x y l|l l' l'' _ IH1 _ IH2]; simpl.
  - constructor.
  - destruct (f x); [now constructor | assumption].
  - destruct (f x), (f y); try reflexivity. constructor.
  - now transitivity (filter f l').
Qed.

Lemma keys_filter_in {V} (f : string * V -> bool) (d : dict V) (k : string) :
  In k (keys (filter f d)) -> In k (keys d).
Proof.
  unfold keys. rewrite !in_map_iff. intros (kv & Hk & Hin).
  exists kv. split; [assumption|]. now apply filter_In in Hin.
Qed.

(* ================================================================== *)
(** ** The post-sort *)

Lemma sort_inner (st : string) (d acc : dict Entry) :
  NoDup (keys acc ++ keys (with_status st d)) ->
  fold_left
    (fun sorted_platforms '(platform, data) =>
       if String.eqb (status data) st
       then dict_set platform data sorted_platforms
       else sorted_platforms) d acc
  = (acc ++ with_status st d)%list.
Proof.
  revert acc. induction d as [|[k v] d IH]; intros acc Hnd; simpl.
  - now rewrite app_nil_r.
  - simpl in Hnd. destruct (String.eqb (status v) st) eqn:E; simpl in *.
    + rewrite dict_set_fresh.
      * rewrite IH.
        -- now rewrite <- app_assoc.
        -- unfold keys in *. rewrite map_app, <- app_assoc. exact Hnd.
      * intros Hin. apply NoDup_remove_2 in Hnd. apply Hnd.
        apply in_or_app. now left.
    + now apply IH.
Qed.

Lemma with_status_keys_disjoint (st : string) (d : dict Entry) (k : string) :
  ~ In k (keys d) -> ~ In k (keys (with_status st d)).
Proof. intros H Hin. apply H. eapply keys_filter_in, Hin. Qed.

(** The three groups of a dictionary have no key in common. *)
Lemma grouped_nodup (d : dict Entry) :
  NoDup (keys d) -> NoDup (keys (grouped d)).
Proof.
  unfold grouped, keys. rewrite !map_app.
  induction d as [|[k v] d IH]; simpl; intros Hnd; [constructor|].
  inversion Hnd as [|? ? Hk Hd]; subst. specialize (IH Hd).
  assert (Hfresh : forall st, ~ In k (map fst (with_status st d))).
  { intros st. now apply with_status_keys_disjoint. }
  assert (Hout : ~ In k (map fst (with_status "found" d)
                         ++ map fst (with_status "not_found" d)
                         ++ map fst (with_status "error" d))%list).
  { rewrite !in_app_iff. intros [H|[H|H]]; eapply Hfresh, H. }
  destruct (String.eqb (status v) "found") eqn:E1.
  - apply String.eqb_eq in E1. rewrite E1. simpl.
    now constructor.
  - destruct (String.eqb (status v) "not_found") eqn:E2.
    + apply String.eqb_eq in E2. rewrite E2. simpl.
      apply NoDup_Add with (a := k) (1 := Add_app k _ _) . split; assumption.
    + destruct (String.eqb (status v) "error") eqn:E3; [|exact IH].
      simpl. rewrite app_assoc.
      apply NoDup_Add with (a := k) (1 := Add_app k _ _).
      rewrite <- app_assoc. split; assumption.
Qed.

Lemma sort_platforms_grouped (d : dict Entry) :
  NoDup (keys d) -> sort_platforms d = grouped d.
Proof.
  intros Hnd. pose proof (grouped_nodup d Hnd) as Hg.
  unfold grouped, keys in Hg. rewrite !map_app in Hg.
  unfold sort_platforms, grouped. simpl.
  rewrite (sort_inner "found" d []).
  2:{ simpl. eapply NoDup_app_remove_r. exact Hg. }
  simpl. rewrite (sort_inner "not_found" d).
  2:{ rewrite app_assoc in Hg. eapply NoDup_app_remove_r. exact Hg. }
  rewrite (sort_inner "error" d).
  - now rewrite <- app_assoc.
  - unfold keys. rewrite map_app, <- app_assoc. exact Hg.
Qed.

(* ================================================================== *)
(** ** The collecting loop *)

Lemma tally_cons (key : string) (f : future) (l : list future) :
  tally key (f :: l) = (hit key (snd f) + tally key l)%Z.
Proof.
  unfold tally, hit. simpl.
  destruct (String.eqb (counter_of (snd f)) key); simpl List.length; lia.
Qed.

Lemma tally_perm (key : string) (l l' : list future) :
  Permutation l l' -> tally key l = tally key l'.
Proof.
  intros H. unfold tally. f_equal.
  apply Permutation_length. now apply filter_perm.
Qed.

Lemma counter_of_cases (r : result outcome) :
  counter_of r = "found" \/ counter_of r = "not_found" \/ counter_of r = "errors".
Proof.
  destruct r as [[[st rt] details]|e]; simpl; [|tauto].
  destruct (String.eqb st "found"); [tauto|].
  destruct (String.eqb st "not_found"); tauto.
Qed.

(** Every future is counted once: the three tallies add up to the length. *)
Lemma tally_total (l : list future) :
  (tally "found" l + tally "not_found" l + tally "errors" l)%Z
  = Z.of_nat (List.length l).
Proof.
  induction l as [|f l IH]; [reflexivity|].
  rewrite !tally_cons. simpl List.length. rewrite Nat2Z.inj_succ.
  assert (H1 : (hit "found" (snd f) + hit "not_found" (snd f)
                + hit "errors" (snd f) = 1)%Z).
  { unfold hit.
    destruct (counter_of_cases (snd f)) as [E|[E|E]]; rewrite E; reflexivity. }
  lia.
Qed.

Section Loop.
Variable world : World.
Variable self : UsernameEye.
Variable username : string.
Variable verbose : bool.

(** One turn of the loop on a state whose summary holds the three
    counters: the entry is stored and exactly one counter moves. *)
Lemma collect_step (s : Results) (a b c : Z) (fut : future) (u : string) :
  summary s = [("found", a); ("not_found", b); ("errors", c)]%list ->
  entry_url_for self (fst fut) username = Return u ->
  collect self username verbose fut s =
  (Return tt,
   {| r_username := r_username s;
      checks_performed := checks_performed s;
      platforms_checked :=
        dict_set (fst fut) (entry_of u (snd fut)) (platforms_checked s);
      summary := [("found", a + hit "found" (snd fut));
                  ("not_found", b + hit "not_found" (snd fut));
                  ("errors", c + hit "errors" (snd fut))]%list%Z;
      warnings := warnings s |}).
Proof.
  intros Hs Hu. destruct fut as [p [[[st rt] details]|e]];
    unfold collect, try_except, bind, lift, set_platform, incr_summary, hit;
    simpl in *; rewrite Hu; simpl.
  - destruct (String.eqb st "found") eqn:E1; simpl.
    + rewrite Hs. simpl. now rewrite !Z.add_0_r.
    + destruct (String.eqb st "not_found") eqn:E2; simpl;
        rewrite Hs; simpl; now rewrite !Z.add_0_r.
  - rewrite Hs. simpl. now rewrite !Z.add_0_r.
Qed.

Lemma for_each_collect (l : list future) (s : Results) (a b c : Z) :
  summary s = [("found", a); ("not_found", b); ("errors", c)]%list ->
  Forall (fun f => exists u, entry_url_for self (fst f) username = Return u) l ->
  for_each l (collect self username verbose) s =
  (Return tt,
   {| r_username := r_username s;
      checks_performed := checks_performed s;
      platforms_checked :=
        fold_left (fun d f => dict_set (fst f) (snd (recorded self username f)) d)
                  l (platforms_checked s);
      summary := [("found", a + tally "found" l);
                  ("not_found", b + tally "not_found" l);
                  ("errors", c + tally "errors" l)]%list%Z;
      warnings := warnings s |}).
Proof.
  revert s a b c. induction l as [|f l IH]; intros s a b c Hs Hok.
  - simpl. unfold ret, tally. simpl. rewrite !Z.add_0_r, <- Hs.
    now destruct s.
  - inversion Hok as [|? ? [u Hu] Hok']; subst.
    simpl for_each. unfold bind at 1.
    rewrite (collect_step s a b c f u Hs Hu).
    match goal with
    | |- for_each l _ ?s' = _ => rewrite (IH s' _ _ _ eq_refl Hok')
    end. simpl.
    rewrite !tally_cons, !Z.add_assoc.
    unfold recorded, url_of. now rewrite Hu.
Qed.

Lemma fold_dict_set_fresh (l : list future) (d : dict Entry) :
  NoDup (keys d ++ map fst l) ->
  fold_left (fun d f => dict_set (fst f) (snd (recorded self username f)) d) l d
  = (d ++ map (recorded self username) l)%list.
Proof.
  revert d. induction l as [|f l IH]; intros d Hnd; simpl.
  - now rewrite app_nil_r.
  - simpl in Hnd. rewrite dict_set_fresh.
    + rewrite IH.
      * now rewrite <- app_assoc.
      * unfold keys in *. rewrite map_app, <- app_assoc. exact Hnd.
    + intros Hin. apply NoDup_remove_2 in Hnd. apply Hnd.
      apply in_or_app. now left.
Qed.

Lemma keys_future_to_platform :
  map fst (future_to_platform world self username) = keys (platforms self).
Proof.
  unfold future_to_platform, keys. rewrite map_map.
  apply map_ext. now intros [p t].
Qed.

Lemma keys_recorded (l : list future) :
  keys (map (recorded self username) l) = map fst l.
Proof. unfold keys. rewrite map_map. reflexivity. Qed.

Hypothesis Hwf : well_formed self username.

Lemma entry_url_for_registry (p : string) :
  In p (keys (platforms self)) ->
  exists u, entry_url_for self p username = Return u.
Proof.
  destruct Hwf as [Hnd Hfmt]. unfold keys. rewrite in_map_iff.
  intros ([p' t] & Hp & Hin). simpl in Hp. subst p'.
  unfold entry_url_for, getitem.
  rewrite (dict_get_in p t _ Hnd Hin). simpl.
  rewrite Forall_forall in Hfmt. exact (Hfmt _ Hin).
Qed.

Variable as_completed : scheduler.
Hypothesis Hfair : fair as_completed.

(** What [analyze] returns, in closed form: it never raises, the summary
    holds the three tallies of the submitted futures, and
    [platforms_checked] holds the three retained groups of the recorded
    items, each in completion order. *)
Lemma analyze_with_closed_form (max_workers : nat) :
  analyze_with world as_completed self max_workers username verbose =
  Return
    {| r_username := username;
       checks_performed := Z.of_nat (List.length (platforms self));
       platforms_checked :=
         grouped (map (recorded self username)
                      (as_completed max_workers
                         (future_to_platform world self username)));
       summary :=
         [("found", tally "found" (future_to_platform world self username));
          ("not_found", tally "not_found" (future_to_platform world self username));
          ("errors", tally "errors" (future_to_platform world self username))]%list;
       warnings :=
         ["Presence does not imply ownership";
          "Accounts may be impersonations";
          "Always verify through official channels"]%list |}.
Proof.
  unfold analyze_with.
  set (futs := future_to_platform world self username).
  pose proof (Hfair max_workers futs) as Hperm.
  set (done := as_completed max_workers futs) in *.
  assert (Hkeys : NoDup (map fst done)).
  { eapply Permutation_NoDup.
    - apply Permutation_map, Permutation_sym, Hperm.
    - unfold futs. rewrite keys_future_to_platform. apply Hwf. }
  assert (Hok : Forall (fun f => exists u,
                   entry_url_for self (fst f) username = Return u) done).
  { apply Forall_forall. intros f Hf. apply entry_url_for_registry.
    rewrite <- keys_future_to_platform. apply in_map.
    eapply Permutation_in; [exact Hperm | exact Hf]. }
  match goal with
  | |- context [for_each done _ ?s0] =>
      rewrite (for_each_collect done s0 0%Z 0%Z 0%Z eq_refl Hok)
  end.
  cbn [platforms_checked r_username checks_performed summary warnings].
  rewrite (fold_dict_set_fresh done []%list Hkeys).
  cbn [app Z.add].
  rewrite sort_platforms_grouped by (now rewrite keys_recorded).
  now rewrite !(tally_perm _ done futs Hperm).
Qed.

End Loop.

(** The registry of the source is well formed for every username. *)
Lemma registry_well_formed (username : string) :
  well_formed __init__ username.
Proof.
  split.
  - simpl. unfold keys, _get_platforms. simpl.
    repeat (constructor; [simpl; intuition discriminate|]). constructor.
  - simpl. unfold _get_platforms.
    repeat (constructor; [eexists; reflexivity|]). constructor.
Qed.

Lemma five_platforms_well_formed (username : string) :
  well_formed five_platforms username.
Proof.
  split.
  - simpl. unfold keys. simpl.
    repeat (constructor; [simpl; intuition discriminate|]). constructor.
  - simpl.
    repeat (constructor; [eexists; reflexivity|]). constructor.
Qed.

Lemma fifo_fair : fair fifo.
Proof. intros w l. apply Permutation_refl. Qed.

Lemma lifo_fair : fair lifo.
Proof. intros w l. apply Permutation_sym, Permutation_rev. Qed.

Lemma tally_as_count (l : list future) :
  tally "found" l = count_where (fun r => String.eqb (status_of r) "found") l /\
  tally "not_found" l
  = count_where (fun r => String.eqb (status_of r) "not_found") l /\
  tally "errors" l = count_where is_other l.
Proof.
  unfold tally, count_where.
  repeat split; f_equal; f_equal; apply filter_ext; intros [p r]; simpl;
    unfold is_other, status_of;
    destruct r as [[[st rt] details]|e]; simpl; try reflexivity;
    destruct (String.eqb st "found") eqn:E1; try reflexivity;
    destruct (String.eqb st "not_found") eqn:E2; try reflexivity.
  apply String.eqb_eq in E1. subst st. discriminate.
Qed.

(* ================================================================== *)
(** ** The run: counters *)

(** C3 -- For every identifier, every world and every completion order, the
    run returns, and its summary satisfies
    found + not_found + errors = number of registry platforms
    = checks_performed, which is 21 for the registry of the source.  The
    three counters are the tallies of the submitted futures, each of which
    moves exactly one counter ([collect_step]). *)
Theorem summary_adds_up (world : World) (as_completed : scheduler)
  (self : UsernameEye) (username : string) (verbose : bool) :
  well_formed self username ->
  fair as_completed ->
  exists r a b c,
    analyze world as_completed self username verbose = Return r /\
    summary r = [("found", a); ("not_found", b); ("errors", c)]%list /\
    (a + b + c)%Z = Z.of_nat (List.length (platforms self)) /\
    checks_performed r = Z.of_nat (List.length (platforms self)) /\
    Z.of_nat (List.length (platforms __init__)) = 21%Z /\
    (forall fut : future,
       (hit "found" (snd fut) + hit "not_found" (snd fut)
        + hit "errors" (snd fut))%Z = 1%Z).
Proof.
  intros Hwf Hfair. unfold analyze.
  rewrite (analyze_with_closed_form world self username verbose
             Hwf as_completed Hfair 10).
  eexists _, _, _, _. split; [reflexivity|]. split; [reflexivity|].
  split.
  - rewrite tally_total. unfold future_to_platform. now rewrite length_map.
  - repeat split. intros fut. unfold hit.
    destruct (counter_of_cases (snd fut)) as [E|[E|E]]; rewrite E; reflexivity.
Qed.

Lemma summary_adds_up_witness :
  exists r a b c,
    analyze world_mixed lifo __init__ "alice" false = Return r /\
    summary r = [("found", a); ("not_found", b); ("errors", c)]%list /\
    (a + b + c)%Z = 21%Z /\
    checks_performed r = 21%Z /\
    Z.of_nat (List.length (platforms __init__)) = 21%Z /\
    (forall fut : future,
       (hit "found" (snd fut) + hit "not_found" (snd fut)
        + hit "errors" (snd fut))%Z = 1%Z).
Proof.
  apply (summary_adds_up world_mixed lifo __init__ "alice" false
           (registry_well_formed "alice") lifo_fair).
Defined.

(** C10 -- The summary has exactly the keys found, not_found and errors, and
    its errors counter is the number of futures whose status is neither
    [found] nor [not_found]: timeout, connection_error, unknown, the
    message-bearing error statuses and the raised futures all land there.
    The other two counters hold the futures with status [found] and
    [not_found]. *)
Theorem summary_has_three_counters (world : World) (as_completed : scheduler)
  (self : UsernameEye) (username : string) (verbose : bool) :
  well_formed self username ->
  fair as_completed ->
  exists r,
    analyze world as_completed self username verbose = Return r /\
    keys (summary r) = ["found"; "not_found"; "errors"]%list /\
    dict_get "errors" (summary r)
    = Some (count_where is_other (future_to_platform world self username)) /\
    dict_get "found" (summary r)
    = Some (count_where (fun o => String.eqb (status_of o) "found")
              (future_to_platform world self username)) /\
    dict_get "not_found" (summary r)
    = Some (count_where (fun o => String.eqb (status_of o) "not_found")
              (future_to_platform world self username)).
Proof.
  intros Hwf Hfair. unfold analyze.
  rewrite (analyze_with_closed_form world self username verbose
             Hwf as_completed Hfair 10).
  eexists. split; [reflexivity|].
  destruct (tally_as_count (future_to_platform world self username))
    as (Hf & Hn & He).
  cbn [summary keys map fst dict_get].
  rewrite Hf, Hn, He. repeat split.
Qed.

Lemma summary_has_three_counters_witness :
  exists r,
    analyze world_mixed fifo __init__ "alice" true = Return r /\
    keys (summary r) = ["found"; "not_found"; "errors"]%list /\
    dict_get "errors" (summary r)
    = Some (count_where is_other
              (future_to_platform world_mixed __init__ "alice")) /\
    dict_get "found" (summary r)
    = Some (count_where (fun o => String.eqb (status_of o) "found")
              (future_to_platform world_mixed __init__ "alice")) /\
    dict_get "not_found" (summary r)
    = Some (count_where (fun o => String.eqb (status_of o) "not_found")
              (future_to_platform world_mixed __init__ "alice")).
Proof.
  apply (summary_has_three_counters world_mixed fifo __init__ "alice" true
           (registry_well_formed "alice") fifo_fair).
Defined.

(** On the mixed world the four statuses timeout, connection_error, unknown
    and a message-bearing error are all counted under errors. *)
Example mixed_world_counters :
  map (fun f => status_of (snd f))
      (firstn 8 (future_to_platform world_mixed __init__ "alice"))
  = ["found"; "not_found"; "found"; "timeout"; "found"; "connection_error";
     "error: bad TLS record"; "unknown"]%list
  /\ count_where is_other (future_to_platform world_mixed __init__ "alice")
     = 4%Z.
Proof. split; reflexivity. Qed.

(* ================================================================== *)
(** ** The run: independence of the schedule *)

Lemma grouped_perm (d d' : dict Entry) :
  Permutation d d' -> Permutation (grouped d) (grouped d').
Proof.
  intros H. unfold grouped, with_status.
  repeat apply Permutation_app; now apply filter_perm.
Qed.

(** C8 -- The aggregation does not depend on the schedule.  For one world
    (one fixed answer per request), one registry and one identifier, two runs
    under any two completion orders and any two pool widths both return, with
    the same summary and the same entry -- status, response time and URL --
    for every platform; the two [platforms_checked] dictionaries hold the same
    items, possibly in another order. *)
Theorem aggregation_independent_of_schedule (world : World)
  (sched1 sched2 : scheduler) (width1 width2 : nat)
  (self : UsernameEye) (username : string) (verbose : bool) :
  well_formed self username ->
  fair sched1 -> fair sched2 ->
  exists r1 r2,
    analyze_with world sched1 self width1 username verbose = Return r1 /\
    analyze_with world sched2 self width2 username verbose = Return r2 /\
    summary r1 = summary r2 /\
    (forall platform,
       dict_get platform (platforms_checked r1)
       = dict_get platform (platforms_checked r2)) /\
    Permutation (platforms_checked r1) (platforms_checked r2).
Proof.
  intros Hwf Hfair1 Hfair2.
  rewrite (analyze_with_closed_form world self username verbose
             Hwf sched1 Hfair1 width1).
  rewrite (analyze_with_closed_form world self username verbose
             Hwf sched2 Hfair2 width2).
  eexists _, _. split; [reflexivity|]. split; [reflexivity|].
  cbn [summary platforms_checked].
  set (futs := future_to_platform world self username).
  assert (Hperm : Permutation
            (map (recorded self username) (sched1 width1 futs))
            (map (recorded self username) (sched2 width2 futs))).
  { apply Permutation_map.
    transitivity futs; [apply Hfair1 | apply Permutation_sym, Hfair2]. }
  assert (Hnd : NoDup (keys (map (recorded self username)
                               (sched1 width1 futs)))).
  { rewrite keys_recorded. eapply Permutation_NoDup.
    - apply Permutation_map, Permutation_sym, Hfair1.
    - unfold futs. rewrite keys_future_to_platform. apply Hwf. }
  split; [reflexivity|]. split.
  - intros platform. apply dict_get_perm.
    + now apply grouped_nodup.
    + now apply grouped_perm.
  - now apply grouped_perm.
Qed.

Lemma aggregation_independent_of_schedule_witness :
  exists r1 r2,
    analyze_with world_five fifo five_platforms 1 "alice" false = Return r1 /\
    analyze_with world_five lifo five_platforms 10 "alice" false = Return r2 /\
    summary r1 = summary r2 /\
    (forall platform,
       dict_get platform (platforms_checked r1)
       = dict_get platform (platforms_checked r2)) /\
    Permutation (platforms_checked r1) (platforms_checked r2).
Proof.
  apply (aggregation_independent_of_schedule world_five fifo lifo 1 10
           five_platforms "alice" false
           (five_platforms_well_formed "alice") fifo_fair lifo_fair).
Defined.

(** The five stubbed platforms under width 1 and width 10: three found, one
    not found, and the timeout counted under errors, both times. *)
Example five_platforms_counts :
  (exists r,
     analyze_with world_five fifo five_platforms 1 "alice" false = Return r /\
     summary r = [("found", 3); ("not_found", 1); ("errors", 1)]%list%Z)
  /\
  (exists r,
     analyze_with world_five lifo five_platforms 10 "alice" false = Return r /\
     summary r = [("found", 3); ("not_found", 1); ("errors", 1)]%list%Z).
Proof. split; eexists; split; vm_compute; reflexivity. Qed.

(** The order of the items does follow the schedule: first in, first listed
    within a group. *)
Example listing_follows_completion_order :
  (exists r, analyze_with world_mixed fifo __init__ 1 "alice" false = Return r
             /\ firstn 2 (keys (platforms_checked r))
                = ["GitHub"; "Instagram"]%list)
  /\
  (exists r, analyze_with world_mixed lifo __init__ 10 "alice" false = Return r
             /\ firstn 2 (keys (platforms_checked r))
                = ["Replit"; "Pastebin"]%list).
Proof. split; eexists; split; vm_compute; reflexivity. Qed.

(* ================================================================== *)
(** ** The run: what the post-sort keeps *)

(** After the post-sort a platform is listed exactly when its recorded
    status is one of found, not_found and error. *)
Lemma platforms_checked_after_sort (world : World) (as_completed : scheduler)
  (username : string) (verbose : bool) :
  fair as_completed ->
  exists r,
    analyze world as_completed __init__ username verbose = Return r /\
    Z.of_nat (List.length (platforms_checked r))
    = count_where (fun o => retained (status_of o))
        (future_to_platform world __init__ username).
Proof.
  intros Hfair. unfold analyze.
  rewrite (analyze_with_closed_form world __init__ username verbose
             (registry_well_formed username) as_completed Hfair 10).
  eexists. split; [reflexivity|]. cbn [platforms_checked].
  set (futs := future_to_platform world __init__ username).
  pose proof (Hfair 10%nat futs) as Hperm.
  unfold count_where. f_equal.
  rewrite <- (Permutation_length (filter_perm _ _ _ Hperm)).
  generalize (as_completed 10%nat futs). intros l.
  unfold grouped, with_status. rewrite !length_app.
  induction l as [|[p o] l IH]; [reflexivity|].
  simpl. unfold retained, status_of in *.
  destruct o as [[[st rt] details]|e]; simpl.
  - destruct (String.eqb st "found") eqn:E1.
    + apply String.eqb_eq in E1. subst st. simpl. lia.
    + destruct (String.eqb st "not_found") eqn:E2.
      * apply String.eqb_eq in E2. subst st. simpl. lia.
      * destruct (String.eqb st "error"); simpl; lia.
  - simpl in IH. lia.
Qed.

(** C1 fails on the code.  When every request times out the run still
    performs its 21 checks and counts 21 errors, yet the returned
    [platforms_checked] is empty: the post-sort copies the statuses found,
    not_found and error only. *)
Theorem timeouts_missing_from_platforms_checked :
  exists r,
    analyze world_all_timeout fifo __init__ "alice" false = Return r /\
    checks_performed r = 21%Z /\
    summary r = [("found", 0); ("not_found", 0); ("errors", 21)]%list%Z /\
    platforms_checked r = []%list /\
    map (fun f => status_of (snd f))
        (firstn 2 (future_to_platform world_all_timeout __init__ "alice"))
    = ["timeout"; "timeout"]%list.
Proof. eexists. split; [vm_compute; reflexivity|]. repeat split. Qed.

(** The same on the mixed world: 17 of the 21 platforms are listed. *)
Example mixed_world_listing :
  exists r,
    analyze world_mixed fifo __init__ "alice" false = Return r /\
    List.length (platforms_checked r) = 17%nat /\
    dict_get "Reddit" (platforms_checked r) = None /\
    dict_get "GitLab" (platforms_checked r) = None.
Proof. eexists. split; [vm_compute; reflexivity|]. repeat split. Qed.

(* ================================================================== *)
(** ** One platform task: failures are verdicts *)

Section TaskFacts.
Variable world : World.
Variable self : UsernameEye.
Variables platform template username target : string.
Hypothesis Hurl : format template (quote username) = Return target.

Lemma send_request_shape :
  exists hdrs redirects,
    send_request world self platform target
    = requests_get world target hdrs (timeout self) redirects.
Proof.
  unfold send_request.
  destruct (String.eqb platform "Instagram"); [now eexists _, _|].
  destruct (String.eqb platform "Twitter"); now eexists _, _.
Qed.

Lemma task_on_raise (e : exception) :
  send_request world self platform target = Raise e ->
  _check_single_platform world self platform template username =
  Return (if is_Timeout e then "timeout"
          else if is_ConnectionError e then "connection_error"
          else "error: " ++ str e, 0%Z, None).
Proof.
  intros H. unfold _check_single_platform. rewrite Hurl. simpl.
  rewrite H. simpl.
  destruct (is_Timeout e); [reflexivity|].
  now destruct (is_ConnectionError e).
Qed.

Lemma task_on_response (response : Response) :
  send_request world self platform target = Return response ->
  _check_single_platform world self platform template username =
  Return (_analyze_response platform response, elapsed world target,
          Some (status_code response, url response)).
Proof.
  intros H. unfold _check_single_platform. rewrite Hurl. simpl.
  rewrite H. simpl. now destruct response.
Qed.

(** A task whose template formats always returns. *)
Lemma task_returns :
  exists out,
    _check_single_platform world self platform template username = Return out.
Proof.
  destruct (send_request world self platform target) as [response|e] eqn:E.
  - rewrite (task_on_response response E). now eexists.
  - rewrite (task_on_raise e E). now eexists.
Qed.

(** The outcome of a task is a function of the answer to its own request
    and of its own clock reading. *)
Lemma task_isolated (world' : World) :
  send_request world' self platform target = send_request world self platform target ->
  elapsed world' target = elapsed world target ->
  _check_single_platform world' self platform template username
  = _check_single_platform world self platform template username.
Proof.
  intros Hreq Hclock. unfold _check_single_platform.
  rewrite Hurl. simpl. now rewrite Hreq, Hclock.
Qed.

End TaskFacts.

(** C5 -- Network failures stay inside the task.  For every platform of the
    registry the task sends one request with the timeout 10; if that request
    raises, the task returns a verdict: [timeout] for a timeout (also for a
    connect timeout, which is both a timeout and a connection error),
    [connection_error] for another connection error, and the status
    [error: ] followed by the message for anything else.  The task returns
    in every case, its outcome depends on its own request alone, and the run
    as a whole returns under every completion order. *)
Theorem network_failures_contained (world : World)
  (platform template username : string) :
  In (platform, template) (platforms __init__) ->
  exists url hdrs redirects,
    format template (quote username) = Return url /\
    send_request world __init__ platform url
    = requests_get world url hdrs 10%Z redirects /\
    (forall e, requests_get world url hdrs 10%Z redirects = Raise e ->
       (is_Timeout e = true ->
        _check_single_platform world __init__ platform template username
        = Return ("timeout", 0%Z, None)) /\
       (is_Timeout e = false -> is_ConnectionError e = true ->
        _check_single_platform world __init__ platform template username
        = Return ("connection_error", 0%Z, None)) /\
       (is_Timeout e = false -> is_ConnectionError e = false ->
        _check_single_platform world __init__ platform template username
        = Return ("error: " ++ str e, 0%Z, None))) /\
    (exists out,
       _check_single_platform world __init__ platform template username
       = Return out) /\
    (forall world',
       send_request world' __init__ platform url
       = send_request world __init__ platform url ->
       elapsed world' url = elapsed world url ->
       _check_single_platform world' __init__ platform template username
       = _check_single_platform world __init__ platform template username) /\
    (forall as_completed verbose, fair as_completed ->
       exists r, analyze world as_completed __init__ username verbose = Return r).
Proof.
  intros Hin.
  destruct (registry_well_formed (quote username)) as [_ Hfmt].
  rewrite Forall_forall in Hfmt. destruct (Hfmt _ Hin) as [url Hurl].
  simpl in Hurl.
  destruct (send_request_shape world __init__ platform url)
    as (hdrs & redirects & Hreq).
  change (timeout __init__) with 10%Z in Hreq.
  exists url, hdrs, redirects. split; [exact Hurl|]. split; [exact Hreq|].
  split; [|split; [|split]].
  - intros e He. rewrite <- Hreq in He.
    pose proof (task_on_raise world __init__ platform template username url
                  Hurl e He) as Htask.
    repeat split; intros; rewrite Htask.
    + now rewrite H.
    + now rewrite H, H0.
    + now rewrite H, H0.
  - now apply task_returns with (target := url).
  - intros world'. now apply task_isolated.
  - intros as_completed verbose Hfair. unfold analyze.
    rewrite (analyze_with_closed_form world __init__ username verbose
               (registry_well_formed username) as_completed Hfair 10).
    now eexists.
Qed.

Lemma network_failures_contained_witness :
  _check_single_platform world_mixed __init__ "Reddit"
    "https://reddit.com/user/{username}" "alice"
  = Return ("timeout", 0%Z, None).
Proof.
  destruct (network_failures_contained world_mixed "Reddit"
              "https://reddit.com/user/{username}" "alice")
    as (url & hdrs & redirects & Hurl & Hreq & Hraise & _).
  - simpl. tauto.
  - injection Hurl as <-.
    destruct (Hraise (ConnectTimeout "timed out")) as [Htimeout _].
    + rewrite <- Hreq. reflexivity.
    + apply Htimeout. reflexivity.
Defined.

(* ================================================================== *)
(** ** Percent-encoding *)

Lemma mem_char_app (c : ascii) (s t : string) :
  mem_char c (s ++ t) = mem_char c s || mem_char c t.
Proof.
  induction s as [|a s IH]; simpl; [reflexivity|].
  now rewrite IH, orb_assoc.
Qed.

Lemma percent_no_space (c : ascii) : mem_char " " (percent c) = false.
Proof. destruct c as [[] [] [] [] [] [] [] []]; reflexivity. Qed.

Lemma safe_is_not_space (c : ascii) :
  always_safe c || mem_char c "/" = true -> Ascii.eqb c " " = false.
Proof.
  intros H. destruct (Ascii.eqb c " ") eqn:E; [|reflexivity].
  apply Ascii.eqb_eq in E. subst c. discriminate H.
Qed.

(** [quote] leaves no space in its output. *)
Lemma quote_no_space (s : string) : mem_char " " (quote s) = false.
Proof.
  unfold quote. induction s as [|c s IH]; [reflexivity|].
  change (quote_from_bytes "/" (String c s))
    with ((if always_safe c || mem_char c "/"
           then String c EmptyString else percent c)
          ++ quote_from_bytes "/" s).
  rewrite mem_char_app, IH, orb_false_r.
  destruct (always_safe c || mem_char c "/") eqn:E.
  - cbn [mem_char]. now rewrite (safe_is_not_space c E).
  - apply percent_no_space.
Qed.

(** The URL a task fetches has no space, whatever the identifier. *)
Lemma fetched_url_no_space (username platform template : string) :
  In (platform, template) (platforms __init__) ->
  exists fetched,
    format template (quote username) = Return fetched /\
    mem_char " " fetched = false.
Proof.
  pose proof (quote_no_space username) as Hq.
  generalize dependent (quote username). intros q Hq Hin.
  simpl in Hin.
  repeat (destruct Hin as [Hin|Hin];
          [injection Hin as <- <-; eexists; split; [reflexivity|];
           simpl; rewrite mem_char_app, Hq; reflexivity|]).
  contradiction.
Qed.

(** C4 fails on the code for the recorded URL.  With the identifier
    [john doe] the task fetches a percent-encoded URL (the echoing world
    shows it in the status), while the [url] field that [analyze] records for
    the same platform is formatted from the raw identifier and contains a
    literal space. *)
Theorem recorded_url_not_percent_encoded :
  _check_single_platform world_echo __init__ "GitHub"
    "https://github.com/{username}" "john doe"
  = Return ("error: https://github.com/john%20doe", 0%Z, None)
  /\
  exists r e,
    analyze world_all_ok fifo __init__ "john doe" false = Return r /\
    dict_get "GitHub" (platforms_checked r) = Some e /\
    entry_url e = "https://github.com/john doe" /\
    mem_char " " (entry_url e) = true /\
    contains " " (entry_url e) = true.
Proof.
  split; [reflexivity|].
  eexists _, _. split; [vm_compute; reflexivity|].
  split; [vm_compute; reflexivity|]. repeat split.
Qed.

(* ================================================================== *)
(** ** Further properties of the classifier *)

Lemma analyze_response_range (platform : string) (response : Response) :
  _analyze_response platform response = "found" \/
  _analyze_response platform response = "not_found" \/
  _analyze_response platform response = "unknown".
Proof.
  destruct (Z.eq_dec (status_code response) 404) as [H404|H404];
    [right; left; now apply rule_404|].
  destruct (any_in login_indicators (lower (url response))) eqn:Hlogin;
    [right; left; now apply rule_login|].
  destruct (any_in not_found_indicators (lower (text response))) eqn:Hbody;
    [right; left; now apply rule_body|].
  rewrite rule_default by assumption.
  destruct (status_code response =? 200)%Z; tauto.
Qed.

(** X1 -- The verdicts of the classifier, each with the exact condition under
    which it is returned: [not_found] for a status 404, a login indicator in
    the lowered final URL or a not-found phrase in the lowered body; [found]
    for status 200 with neither; [unknown] for any other status with
    neither.  No other string is ever returned. *)
Theorem verdict_conditions (platform : string) (response : Response) :
  let login := any_in login_indicators (lower (url response)) in
  let phrase := any_in not_found_indicators (lower (text response)) in
  (_analyze_response platform response = "not_found" <->
   status_code response = 404%Z \/ login = true \/ phrase = true)
  /\
  (_analyze_response platform response = "found" <->
   status_code response = 200%Z /\ login = false /\ phrase = false)
  /\
  (_analyze_response platform response = "unknown" <->
   status_code response <> 404%Z /\ status_code response <> 200%Z /\
   login = false /\ phrase = false)
  /\
  (_analyze_response platform response = "found" \/
   _analyze_response platform response = "not_found" \/
   _analyze_response platform response = "unknown").
Proof.
  intros login phrase. subst login phrase.
  split; [|split; [|split; [|apply analyze_response_range]]].
  - split.
    + intros H.
      destruct (Z.eq_dec (status_code response) 404) as [H404|H404]; [tauto|].
      destruct (any_in login_indicators (lower (url response))) eqn:Hlogin;
        [tauto|].
      destruct (any_in not_found_indicators (lower (text response))) eqn:Hbody;
        [tauto|].
      rewrite rule_default in H by assumption.
      now destruct (status_code response =? 200)%Z.
    + intros [H|[H|H]];
        [now apply rule_404 | now apply rule_login | now apply rule_body].
  - split.
    + intros H.
      destruct (Z.eq_dec (status_code response) 404) as [H404|H404];
        [rewrite rule_404 in H by assumption; discriminate|].
      destruct (any_in login_indicators (lower (url response))) eqn:Hlogin;
        [rewrite rule_login in H by assumption; discriminate|].
      destruct (any_in not_found_indicators (lower (text response))) eqn:Hbody;
        [rewrite rule_body in H by assumption; discriminate|].
      rewrite rule_default in H by assumption.
      destruct (status_code response =? 200)%Z eqn:E; [|discriminate].
      apply Z.eqb_eq in E. tauto.
    + intros (H200 & Hlogin & Hbody).
      rewrite rule_default; try assumption.
      * now rewrite H200.
      * rewrite H200. discriminate.
  - split.
    + intros H.
      destruct (Z.eq_dec (status_code response) 404) as [H404|H404];
        [rewrite rule_404 in H by assumption; discriminate|].
      destruct (any_in login_indicators (lower (url response))) eqn:Hlogin;
        [rewrite rule_login in H by assumption; discriminate|].
      destruct (any_in not_found_indicators (lower (text response))) eqn:Hbody;
        [rewrite rule_body in H by assumption; discriminate|].
      rewrite rule_default in H by assumption.
      destruct (status_code response =? 200)%Z eqn:E; [discriminate|].
      apply Z.eqb_neq in E. tauto.
    + intros (H404 & H200 & Hlogin & Hbody).
      rewrite rule_default by assumption.
      apply Z.eqb_neq in H200. now rewrite H200.
Qed.

(** X2 -- The verdict is a function of the status, the lowered final URL and
    the lowered body alone: neither the platform name nor the letter case of
    the URL and of the body can change it. *)
Theorem verdict_ignores_platform_and_case (platform1 platform2 : string)
  (response1 response2 : Response) :
  status_code response1 = status_code response2 ->
  lower (url response1) = lower (url response2) ->
  lower (text response1) = lower (text response2) ->
  _analyze_response platform1 response1 = _analyze_response platform2 response2.
Proof.
  intros Hs Hu Ht.
  destruct (Z.eq_dec (status_code response1) 404) as [H404|H404].
  - rewrite (rule_404 platform1 response1) by congruence.
    now rewrite (rule_404 platform2 response2) by congruence.
  - destruct (any_in login_indicators (lower (url response1))) eqn:Hlogin.
    + rewrite (rule_login platform1 response1) by congruence.
      now rewrite (rule_login platform2 response2) by congruence.
    + destruct (any_in not_found_indicators (lower (text response1))) eqn:Hbody.
      * rewrite (rule_body platform1 response1) by congruence.
        now rewrite (rule_body platform2 response2) by congruence.
      * rewrite (rule_default platform1 response1) by congruence.
        rewrite (rule_default platform2 response2) by congruence.
        now rewrite Hs.
Qed.

Lemma verdict_ignores_platform_and_case_witness :
  _analyze_response "GitHub"
    (page 200 "https://github.com/Alice" "<HTML>Profile</HTML>")
  = _analyze_response "Twitter"
      (page 200 "HTTPS://GitHub.com/alice" "<html>profile</html>").
Proof.
  apply (verdict_ignores_platform_and_case "GitHub" "Twitter"
           (page 200 "https://github.com/Alice" "<HTML>Profile</HTML>")
           (page 200 "HTTPS://GitHub.com/alice" "<html>profile</html>"));
    reflexivity.
Defined.

(* ================================================================== *)
(** ** Further properties of one platform task *)

(** X3 -- What a task can return.  Either the request was answered, and the
    status is one of found, not_found and unknown with the details filled; or
    the request raised, and the status is timeout, connection_error or a
    string that starts with [error: ], the response time is 0 and the details
    are empty.  The bare status [error] is never returned by a task. *)
Theorem task_outcome_shapes (world : World) (self : UsernameEye)
  (platform template username st : string) (response_time : Z)
  (details : option (Z * string)) :
  _check_single_platform world self platform template username
  = Return (st, response_time, details) ->
  ((In st ["found"; "not_found"; "unknown"]%list /\ details <> None)
   \/
   ((In st ["timeout"; "connection_error"]%list \/ startswith "error: " st = true)
    /\ response_time = 0%Z /\ details = None))
  /\ st <> "error".
Proof.
  unfold _check_single_platform.
  destruct (format template (quote username)) as [fetched|e]; simpl;
    [|discriminate].
  destruct (send_request world self platform fetched) as [response|e]; simpl.
  - destruct response as [code final body]. intros [= <- <- <-].
    destruct (analyze_response_range platform (page code final body))
      as [H|[H|H]]; unfold page in H; rewrite H;
      (split; [left; split; [simpl; tauto | discriminate] | discriminate]).
  - destruct (is_Timeout e).
    + intros [= <- <- <-]. split; [right|discriminate]. simpl. tauto.
    + destruct (is_ConnectionError e).
      * intros [= <- <- <-]. split; [right|discriminate]. simpl. tauto.
      * intros [= <- <- <-]. split; [right|discriminate].
        split; [right; reflexivity | tauto].
Qed.

Lemma task_outcome_shapes_witness :
  ((In "error: bad TLS record" ["found"; "not_found"; "unknown"]%list
    /\ @None (Z * string) <> None)
   \/
   ((In "error: bad TLS record" ["timeout"; "connection_error"]%list
     \/ startswith "error: " "error: bad TLS record" = true)
    /\ 0%Z = 0%Z /\ @None (Z * string) = None))
  /\ "error: bad TLS record" <> "error".
Proof.
  apply (task_outcome_shapes world_mixed __init__ "Twitch"
           "https://twitch.tv/{username}" "alice").
  reflexivity.
Defined.

(** X4 -- How every request is sent: with the timeout 10, with the
    identifying User-Agent of the tool among its headers, following redirects
    on every platform but Instagram, and with an Accept header on Instagram
    only. *)
Theorem request_shape (world : World) (platform fetched : string) :
  exists hdrs,
    send_request world __init__ platform fetched
    = requests_get world fetched hdrs 10%Z
        (negb (String.eqb platform "Instagram")) /\
    (exists agent, dict_get "User-Agent" hdrs = Some agent /\
                   contains "iPhoenix-OSINT/1.0" agent = true) /\
    (dict_get "Accept" hdrs <> None <-> platform = "Instagram").
Proof.
  unfold send_request.
  destruct (String.eqb platform "Instagram") eqn:E.
  - apply String.eqb_eq in E. eexists. split; [reflexivity|]. split.
    + eexists. split; reflexivity.
    + split; [intros _; exact E | intros _; discriminate].
  - apply String.eqb_neq in E.
    exists (headers __init__). split.
    + now destruct (String.eqb platform "Twitter").
    + split.
      * eexists. split; reflexivity.
      * split; [intros H; now elim H | intros H; contradiction].
Qed.

(* ================================================================== *)
(** ** Formatting and percent-encoding, in general *)

Lemma append_empty_r (s : string) : s ++ EmptyString = s.
Proof. induction s as [|c s IH]; simpl; [reflexivity | now rewrite IH]. Qed.

Lemma append_cancel_l (p a b : string) : p ++ a = p ++ b -> a = b.
Proof.
  induction p as [|c p IH]; simpl; intros H; [assumption|].
  injection H as H. now apply IH.
Qed.

(** A template made of a brace-free prefix, the slot and a rest: the slot is
    replaced by the value as it stands and the rest is formatted on. *)
Lemma format_one_slot (pre post value : string) :
  mem_char "{" pre = false -> mem_char "}" pre = false ->
  format (pre ++ "{username}" ++ post) value
  = rbind (format post value) (fun s => Return (pre ++ value ++ s)).
Proof.
  unfold format. induction pre as [|c pre IH]; intros Hopen Hclose.
  - simpl. destruct (format_scan None value post); reflexivity.
  - simpl in Hopen, Hclose.
    apply orb_false_iff in Hopen as [Hc1 Hopen].
    apply orb_false_iff in Hclose as [Hc2 Hclose].
    change ((String c pre) ++ "{username}" ++ post)
      with (String c (pre ++ "{username}" ++ post)).
    cbn [format_scan]. rewrite Hc1, Hc2, (IH Hopen Hclose).
    destruct (format_scan None value post); reflexivity.
Qed.

(** Every template of the registry is a brace-free prefix followed by the
    slot. *)
Lemma registry_templates (platform template : string) :
  In (platform, template) (platforms __init__) ->
  template = template_prefix template ++ "{username}" /\
  mem_char "{" (template_prefix template) = false /\
  mem_char "}" (template_prefix template) = false.
Proof.
  simpl. intros Hin.
  repeat (destruct Hin as [Hin|Hin];
          [injection Hin as <- <-; repeat split|]).
  contradiction.
Qed.

Lemma registry_format (platform template value : string) :
  In (platform, template) (platforms __init__) ->
  format template value = Return (template_prefix template ++ value).
Proof.
  intros Hin. destruct (registry_templates _ _ Hin) as (Ht & Hopen & Hclose).
  rewrite Ht at 1.
  rewrite <- (append_empty_r "{username}").
  rewrite (format_one_slot _ EmptyString value Hopen Hclose). simpl.
  now rewrite append_empty_r.
Qed.

Lemma all_chars_app (P : ascii -> bool) (s t : string) :
  all_chars P (s ++ t) = all_chars P s && all_chars P t.
Proof.
  induction s as [|c s IH]; simpl; [reflexivity|].
  now rewrite IH, andb_assoc.
Qed.

Lemma quote_cons (c : ascii) (s : string) :
  quote (String c s)
  = (if is_safe_char c then String c EmptyString else percent c) ++ quote s.
Proof. reflexivity. Qed.

Lemma percent_chars (c : ascii) : all_chars is_quoted_char (percent c) = true.
Proof. destruct c as [[] [] [] [] [] [] [] []]; reflexivity. Qed.

Lemma unquote_percent (c : ascii) (s : string) :
  unquote (percent c ++ s) = String c (unquote s).
Proof. destruct c as [[] [] [] [] [] [] [] []]; reflexivity. Qed.

Lemma safe_is_not_percent (c : ascii) :
  is_safe_char c = true -> Ascii.eqb c "%" = false.
Proof.
  intros H. destruct (Ascii.eqb c "%") eqn:E; [|reflexivity].
  apply Ascii.eqb_eq in E. subst c. discriminate H.
Qed.

Lemma quote_alphabet (s : string) : all_chars is_quoted_char (quote s) = true.
Proof.
  induction s as [|c s IH]; [reflexivity|].
  rewrite quote_cons, all_chars_app, IH, andb_true_r.
  destruct (is_safe_char c) eqn:E.
  - simpl. unfold is_quoted_char. now rewrite E.
  - apply percent_chars.
Qed.

Lemma unquote_quote (s : string) : unquote (quote s) = s.
Proof.
  induction s as [|c s IH]; [reflexivity|].
  rewrite quote_cons. destruct (is_safe_char c) eqn:E.
  - simpl. rewrite (safe_is_not_percent c E). now rewrite IH.
  - rewrite unquote_percent. now rewrite IH.
Qed.

Lemma quote_length (s : string) : (String.length s <= String.length (quote s))%nat.
Proof.
  induction s as [|c s IH]; [apply le_n|].
  rewrite quote_cons. destruct (is_safe_char c).
  - simpl. lia.
  - unfold percent. simpl. lia.
Qed.

Lemma quote_fixed_point (s : string) :
  quote s = s <-> all_chars is_safe_char s = true.
Proof.
  induction s as [|c s IH]; [simpl; tauto|].
  rewrite quote_cons. simpl all_chars.
  destruct (is_safe_char c) eqn:E; simpl.
  - rewrite <- IH. split; [now intros [= ->] | now intros ->].
  - split; [|discriminate]. unfold percent. simpl. intros [= _ Hs].
    pose proof (quote_length s) as Hlen. rewrite <- Hs in Hlen at 1.
    simpl in Hlen. lia.
Qed.

(** X5 -- The URL a task fetches is the template's prefix followed by the
    percent-encoded identifier; the encoded part is written with letters,
    digits and the characters [_.-~/%] only; it decodes back to the
    identifier; and two identifiers that give the same fetched URL on a
    platform are the same identifier. *)
Theorem fetched_url_is_faithful (platform template username other : string) :
  In (platform, template) (platforms __init__) ->
  format template (quote username)
  = Return (template_prefix template ++ quote username) /\
  all_chars is_quoted_char (quote username) = true /\
  unquote (quote username) = username /\
  (format template (quote username) = format template (quote other) ->
   username = other).
Proof.
  intros Hin. split; [now apply registry_format with (platform := platform)|].
  split; [apply quote_alphabet|]. split; [apply unquote_quote|].
  rewrite !(registry_format platform template _ Hin). intros [= H].
  apply append_cancel_l in H.
  rewrite <- (unquote_quote username), <- (unquote_quote other).
  now rewrite H.
Qed.

Lemma fetched_url_is_faithful_witness :
  format "https://medium.com/@{username}" (quote "jörg w")
  = Return ("https://medium.com/@" ++ "j%C3%B6rg%20w").
Proof.
  apply (fetched_url_is_faithful "Medium" "https://medium.com/@{username}"
           "jörg w" "jörg w").
  simpl. tauto.
Defined.

(** X6 -- The URL recorded for a platform equals the URL that was fetched
    exactly when the identifier is written with letters, digits and the
    characters [_.-~/] only, that is when [quote] has nothing to encode. *)
Theorem recorded_url_is_fetched_url_iff_safe (platform template username : string) :
  In (platform, template) (platforms __init__) ->
  (format template username = format template (quote username) <->
   all_chars is_safe_char username = true).
Proof.
  intros Hin. rewrite !(registry_format platform template _ Hin).
  rewrite <- quote_fixed_point. split.
  - intros [= H]. apply append_cancel_l in H. now symmetry.
  - now intros ->.
Qed.

Lemma recorded_url_is_fetched_url_iff_safe_witness :
  format "https://t.me/{username}" "alice_99"
  = format "https://t.me/{username}" (quote "alice_99").
Proof.
  apply (recorded_url_is_fetched_url_iff_safe "Telegram"
           "https://t.me/{username}" "alice_99").
  - simpl. tauto.
  - reflexivity.
Defined.

(* ================================================================== *)
(** ** Identifiers that look like a login redirect *)

Lemma plain_after_lower_is_safe (c : ascii) :
  is_plain_char (lower_char c) = true -> is_safe_char c = true.
Proof. destruct c as [[] [] [] [] [] [] [] []]; vm_compute; congruence. Qed.

Lemma startswith_lower_quote (needle s : string) :
  all_chars is_plain_char needle = true ->
  startswith needle (lower s) = true ->
  startswith needle (lower (quote s)) = true.
Proof.
  revert s. induction needle as [|a needle IH]; intros s Hplain H;
    [reflexivity|].
  destruct s as [|c s]; [discriminate H|].
  simpl in Hplain. apply andb_true_iff in Hplain as [Ha Hplain].
  simpl in H. apply andb_true_iff in H as [Hac H].
  apply Ascii.eqb_eq in Hac. subst a.
  rewrite quote_cons, (plain_after_lower_is_safe c Ha). simpl.
  now rewrite Ascii.eqb_refl, IH.
Qed.

Lemma contains_lower_quote (needle s : string) :
  all_chars is_plain_char needle = true ->
  contains needle (lower s) = true ->
  contains needle (lower (quote s)) = true.
Proof.
  intros Hplain. induction s as [|c s IH]; intros H.
  - exact H.
  - simpl in H. apply orb_true_iff in H as [H|H].
    + apply (startswith_lower_quote needle (String c s) Hplain) in H.
      destruct (lower (quote (String c s))); simpl in *; now rewrite H.
    + rewrite quote_cons, lower_app. now apply contains_app_r, IH.
Qed.

Lemma login_indicators_plain :
  Forall (fun indicator => all_chars is_plain_char indicator = true)
         login_indicators.
Proof. repeat constructor. Qed.

Lemma login_indicator_survives_quote (s : string) :
  any_in login_indicators (lower s) = true ->
  any_in login_indicators (lower (quote s)) = true.
Proof.
  rewrite !any_in_true. intros (i & Hi & Hc). exists i. split; [assumption|].
  apply contains_lower_quote; [|assumption].
  pose proof login_indicators_plain as H. rewrite Forall_forall in H.
  now apply H.
Qed.

(** X7 -- An identifier that contains, up to case, one of the login
    indicators (such as [joiner] or [Author]) is reported [not_found] on
    every platform of the registry that answers at the requested URL,
    whatever the status and the body of the answer: the indicator is found
    in the final URL itself. *)
Theorem indicator_in_identifier_is_not_found (world : World)
  (platform template username fetched : string) (response : Response) :
  In (platform, template) (platforms __init__) ->
  any_in login_indicators (lower username) = true ->
  format template (quote username) = Return fetched ->
  send_request world __init__ platform fetched = Return response ->
  url response = fetched ->
  _check_single_platform world __init__ platform template username
  = Return ("not_found", elapsed world fetched,
            Some (status_code response, fetched)).
Proof.
  intros Hin Hind Hfetched Hsend Hurl.
  rewrite (task_on_response world __init__ platform template username fetched
             Hfetched response Hsend).
  rewrite Hurl. f_equal. f_equal. f_equal.
  destruct (Z.eq_dec (status_code response) 404) as [H404|H404];
    [now apply rule_404|].
  apply rule_login. rewrite Hurl.
  rewrite (registry_format platform template _ Hin) in Hfetched.
  injection Hfetched as <-.
  rewrite <- (append_empty_r (quote username)).
  apply any_in_part. now apply login_indicator_survives_quote.
Qed.

Lemma indicator_in_identifier_is_not_found_witness :
  _check_single_platform world_all_ok __init__ "GitHub"
    "https://github.com/{username}" "Joiner"
  = Return ("not_found", 1234%Z, Some (200%Z, "https://github.com/Joiner")).
Proof.
  apply (indicator_in_identifier_is_not_found world_all_ok "GitHub"
           "https://github.com/{username}" "Joiner"
           "https://github.com/Joiner" (page 200 "https://github.com/Joiner" "hello"));
    try reflexivity.
  simpl. tauto.
Defined.

(* ================================================================== *)
(** ** Lookups in grouped dictionaries *)

Lemma dict_get_app {V} (k : string) (a b : dict V) :
  dict_get k (a ++ b)%list
  = match dict_get k a with Some v => Some v | None => dict_get k b end.
Proof.
  induction a as [|[k' v'] a IH]; simpl; [reflexivity|].
  now destruct (String.eqb k' k).
Qed.

Lemma dict_get_absent {V} (k : string) (d : dict V) :
  ~ In k (keys d) -> dict_get k d = None.
Proof.
  intros H. destruct (dict_get k d) as [v|] eqn:E; [|reflexivity].
  exfalso. apply H. apply dict_get_some_in in E.
  change k with (fst (k, v)). now apply in_map.
Qed.

Lemma dict_get_filter {V} (f : string * V -> bool) (k : string) (d : dict V) :
  NoDup (keys d) ->
  dict_get k (filter f d)
  = match dict_get k d with
    | Some v => if f (k, v) then Some v else None
    | None => None
    end.
Proof.
  induction d as [|[k' v'] d IH]; simpl; intros Hnd; [reflexivity|].
  inversion Hnd as [|? ? Hk' Hd]; subst.
  destruct (String.eqb k' k) eqn:E.
  - apply String.eqb_eq in E. subst k'.
    destruct (f (k, v')); simpl.
    + now rewrite String.eqb_refl.
    + apply dict_get_absent. intros Hin. apply Hk'.
      eapply keys_filter_in, Hin.
  - destruct (f (k', v')); simpl; [rewrite E|]; now apply IH.
Qed.

Lemma dict_get_grouped (k : string) (d : dict Entry) :
  NoDup (keys d) ->
  dict_get k (grouped d)
  = match dict_get k d with
    | Some e => if retained (status e) then Some e else None
    | None => None
    end.
Proof.
  intros Hnd. unfold grouped, with_status.
  rewrite !dict_get_app, !dict_get_filter by assumption.
  destruct (dict_get k d) as [e|]; [|reflexivity].
  unfold retained. simpl.
  destruct (String.eqb (status e) "found"); [reflexivity|].
  destruct (String.eqb (status e) "not_found"); [reflexivity|].
  now destruct (String.eqb (status e) "error").
Qed.

Lemma with_status_twice (st st' : string) (d : dict Entry) :
  with_status st (with_status st' d)
  = if String.eqb st' st then with_status st d else []%list.
Proof.
  unfold with_status. induction d as [|[k e] d IH]; simpl.
  - now destruct (String.eqb st' st).
  - destruct (String.eqb (status e) st') eqn:E1; simpl.
    + apply String.eqb_eq in E1. rewrite E1.
      destruct (String.eqb st' st) eqn:E2; rewrite IH; reflexivity.
    + rewrite IH. destruct (String.eqb st' st) eqn:E2; [|reflexivity].
      apply String.eqb_eq in E2. subst st'. now rewrite E1.
Qed.

Lemma with_status_app (st : string) (a b : dict Entry) :
  with_status st (a ++ b)%list = (with_status st a ++ with_status st b)%list.
Proof. apply filter_app. Qed.

Lemma grouped_idempotent (d : dict Entry) : grouped (grouped d) = grouped d.
Proof.
  unfold grouped at 1.
  unfold grouped. rewrite !with_status_app, !with_status_twice. simpl.
  now rewrite !app_nil_r.
Qed.

Lemma with_status_statuses (st : string) (d : dict Entry) :
  map (fun kv => status (snd kv)) (with_status st d)
  = repeat st (List.length (with_status st d)).
Proof.
  unfold with_status. induction d as [|[k e] d IH]; simpl; [reflexivity|].
  destruct (String.eqb (status e) st) eqn:E; [|exact IH].
  apply String.eqb_eq in E. simpl. now rewrite IH, E.
Qed.

(** X8 -- The post-sort on any dictionary: an entry survives exactly when its
    status is found, not_found or error, and then unchanged; the result lists
    the found entries first, then the not_found ones, then the error ones;
    and sorting twice is sorting once. *)
Theorem post_sort_behaviour (d : dict Entry) :
  NoDup (keys d) ->
  (forall platform,
     dict_get platform (sort_platforms d)
     = match dict_get platform d with
       | Some e => if retained (status e) then Some e else None
       | None => None
       end) /\
  (exists i j k,
     map (fun kv => status (snd kv)) (sort_platforms d)
     = (repeat "found" i ++ repeat "not_found" j ++ repeat "error" k)%list) /\
  sort_platforms (sort_platforms d) = sort_platforms d.
Proof.
  intros Hnd. rewrite (sort_platforms_grouped d Hnd).
  split; [intros platform; now apply dict_get_grouped|]. split.
  - exists (List.length (with_status "found" d)),
           (List.length (with_status "not_found" d)),
           (List.length (with_status "error" d)).
    unfold grouped. rewrite !map_app. now rewrite !with_status_statuses.
  - rewrite sort_platforms_grouped by now apply grouped_nodup.
    apply grouped_idempotent.
Qed.

Lemma post_sort_behaviour_witness :
  sort_platforms
    (sort_platforms
       [("A", entry_of "a" (Return ("timeout", 0%Z, None)));
        ("B", entry_of "b" (Return ("not_found", 7%Z, None)));
        ("C", entry_of "c" (Return ("found", 9%Z, None)))]%list)
  = sort_platforms
      [("A", entry_of "a" (Return ("timeout", 0%Z, None)));
       ("B", entry_of "b" (Return ("not_found", 7%Z, None)));
       ("C", entry_of "c" (Return ("found", 9%Z, None)))]%list.
Proof.
  apply (post_sort_behaviour
           [("A", entry_of "a" (Return ("timeout", 0%Z, None)));
            ("B", entry_of "b" (Return ("not_found", 7%Z, None)));
            ("C", entry_of "c" (Return ("found", 9%Z, None)))]%list).
  simpl. repeat (constructor; [simpl; intuition discriminate|]). constructor.
Defined.

(* ================================================================== *)
(** ** Further properties of the collecting loop *)

Lemma status_of_entry (u : string) (o : result outcome) :
  status (entry_of u o) = status_of o.
Proof. now destruct o as [[[st rt] details]|e]. Qed.

(** X9 -- Before the post-sort nothing is lost.  On a well-formed registry
    the loop over any futures of distinct registry platforms -- returned or
    raised -- never raises; it leaves exactly one entry per future, in
    completion order, each with the status of its future (error for a raised
    one), and the three counters add up to the number of futures. *)
Theorem loop_keeps_one_entry_per_future (self : UsernameEye)
  (username : string) (verbose : bool) (l : list future) (s0 : Results) :
  well_formed self username ->
  NoDup (map fst l) ->
  incl (map fst l) (keys (platforms self)) ->
  platforms_checked s0 = []%list ->
  summary s0 = [("found", 0); ("not_found", 0); ("errors", 0)]%list%Z ->
  exists s a b c,
    for_each l (collect self username verbose) s0 = (Return tt, s) /\
    keys (platforms_checked s) = map fst l /\
    (forall platform o, In (platform, o) l ->
       exists e, dict_get platform (platforms_checked s) = Some e /\
                 status e = status_of o) /\
    summary s = [("found", a); ("not_found", b); ("errors", c)]%list /\
    (a + b + c)%Z = Z.of_nat (List.length l).
Proof.
  intros Hwf Hnd Hincl Hpc Hsum.
  assert (Hok : Forall (fun f => exists u,
                   entry_url_for self (fst f) username = Return u) l).
  { apply Forall_forall. intros f Hf.
    apply (entry_url_for_registry self username Hwf).
    apply Hincl. now apply in_map. }
  rewrite (for_each_collect self username verbose l s0 0%Z 0%Z 0%Z Hsum Hok).
  rewrite Hpc, (fold_dict_set_fresh self username l []%list Hnd).
  eexists _, _, _, _. split; [reflexivity|].
  cbn [platforms_checked summary app]. split; [apply keys_recorded|].
  split; [|split; [reflexivity|]].
  - intros platform o Hin. eexists. split.
    + apply dict_get_in.
      * now rewrite keys_recorded.
      * apply in_map_iff. exists (platform, o). split; [reflexivity|exact Hin].
    + apply status_of_entry.
  - rewrite !Z.add_0_l. apply tally_total.
Qed.

Lemma loop_keeps_one_entry_per_future_witness :
  exists s a b c,
    for_each
      [("Reddit", Return ("timeout", 0%Z, None));
       ("GitHub", Raise (OtherException "boom"));
       ("Steam", Return ("found", 12%Z, None))]%list
      (collect __init__ "alice" false)
      {| r_username := "alice"; checks_performed := 21%Z;
         platforms_checked := []%list;
         summary := [("found", 0); ("not_found", 0); ("errors", 0)]%list%Z;
         warnings := []%list |}
    = (Return tt, s) /\
    keys (platforms_checked s) = ["Reddit"; "GitHub"; "Steam"]%list /\
    (forall platform o,
       In (platform, o)
          [("Reddit", Return ("timeout", 0%Z, None));
           ("GitHub", Raise (OtherException "boom"));
           ("Steam", Return ("found", 12%Z, None))]%list ->
       exists e, dict_get platform (platforms_checked s) = Some e /\
                 status e = status_of o) /\
    summary s = [("found", a); ("not_found", b); ("errors", c)]%list /\
    (a + b + c)%Z = 3%Z.
Proof.
  apply (loop_keeps_one_entry_per_future __init__ "alice" false
           [("Reddit", Return ("timeout", 0%Z, None));
            ("GitHub", Raise (OtherException "boom"));
            ("Steam", Return ("found", 12%Z, None))]%list).
  - apply registry_well_formed.
  - simpl. repeat (constructor; [simpl; intuition discriminate|]). constructor.
  - intros p Hp. simpl in Hp. simpl. intuition (subst; tauto).
  - reflexivity.
  - reflexivity.
Defined.











(* ================================================================== *)
(** ** A malformed registry *)





(* ================================================================== *)
(** ** The callers: formatter and driver *)

Lemma format_output_fails_on_results (env : Env) (r : Results)
  (no_color : bool) (p : Process) :
  let c := if no_color then no_colors else colors p in
  format_output env (to_python r) no_color p
  = (Raise (OtherException "'str' object has no attribute 'get'"),
     {| colors := c;
        stdout := (stdout p
                   ++ [(nl ++ times "=" 60)%string;
                       (BOLD c ++ HEADER c ++ "ANALYSIS RESULTS" ++ ENDC c)%string;
                       times "=" 60])%list;
        case_data := case_data p;
        written := written p |}).
Proof.
  destruct no_color; unfold format_output, io_bind, print, set_colors, io_ret,
    color, io_lift; cbn -[times nl]; now rewrite <- !app_assoc.
Qed.

(** X13 -- Handing the dictionary that [analyze] returns to [format_output]
    always fails.  The dictionary has a key [username], so the formatter
    takes the username branch and passes it the value of that key, a string;
    [_format_username_results] then calls [.get] on the string.  Only the
    three banner lines are printed and the closing reminder never is. *)
Theorem format_output_rejects_analyze_results (env : Env) (r : Results)
  (no_color : bool) (p : Process) :
  let c := if no_color then no_colors else colors p in
  format_output env (to_python r) no_color p
  = (Raise (OtherException "'str' object has no attribute 'get'"),
     {| colors := c;
        stdout := (stdout p
                   ++ [(nl ++ times "=" 60)%string;
                       (BOLD c ++ HEADER c ++ "ANALYSIS RESULTS" ++ ENDC c)%string;
                       times "=" 60])%list;
        case_data := case_data p;
        written := written p |}).
Proof.
  destruct no_color; unfold format_output, io_bind, print, set_colors, io_ret,
    color, io_lift; cbn -[times nl]; now rewrite <- !app_assoc.
Qed.

Lemma main_body_never_completes (env : Env) (args : Args) (p : Process) :
  given (arg_image args) = false ->
  given (arg_email args) = false ->
  given (arg_phone args) = false ->
  exists e lines,
    main_body env args p
    = (Raise e, {| colors := colors (snd (main_body env args p));
                   stdout := (stdout p ++ lines)%list;
                   case_data := case_data (snd (main_body env args p));
                   written := written p |}).
Proof.
  intros Himage Hemail Hphone. unfold main_body.
  rewrite Himage, Hemail, Hphone.
  destruct (given (arg_username args)).
  - unfold run_username_analysis, banner, set_input, set_finding,
      update_case_data, io_bind, print, io_ret, io_lift.
    cbn -[times nl center analyze to_python format_output].
    destruct (analyze (env_world env) (env_as_completed env) __init__
                (value_of (arg_username args)) (arg_verbose args)) as [r|e].
    + cbn -[times nl center to_python format_output].
      rewrite format_output_fails_on_results.
      cbn -[times nl center to_python].
      eexists _, _. rewrite <- !app_assoc. cbn -[times nl center to_python].
      reflexivity.
    + cbn -[times nl center].
      eexists _, _. rewrite <- !app_assoc. cbn -[times nl center].
      reflexivity.
  - unfold io_bind, io_ret, io_lift. destruct p as [c out cd w]. cbn.
    eexists _, nil. now rewrite app_nil_r.
Qed.

Lemma main_prelude (env : Env) (p : Process) :
  exists p1,
    (display_disclaimer ;;> set_timestamp (utcnow_isoformat env)) p
    = (Return tt, p1) /\
    stdout p1
    = (stdout p
       ++ [disclaimer_text; (nl ++ times "=" 60)%string;
           "[iPhoenix] Initializing ethical OSINT investigation...";
           (times "=" 60 ++ nl)%string])%list /\
    written p1 = written p.
Proof.
  eexists. split; [reflexivity|]. split; [|reflexivity].
  cbn [stdout]. now rewrite <- !app_assoc.
Qed.

(** X14 -- A username run of the command line never succeeds.  Whenever no
    image, e-mail or phone argument is given, [main] ends with exit status 1
    whatever the network answers: its last output is the error line of its
    exception handler, the closing line of a successful analysis is not
    reached, and no case file is written even when one was asked for. *)
Theorem username_run_exits_with_1 (env : Env) (args : Args) (p : Process) :
  given (arg_image args) = false ->
  given (arg_email args) = false ->
  given (arg_phone args) = false ->
  exists e lines,
    fst (main env args p) = 1%Z /\
    stdout (snd (main env args p))
    = (stdout p ++ lines
       ++ [(nl ++ "[✗] Error during analysis: " ++ str e)%string])%list /\
    written (snd (main env args p)) = written p.
Proof.
  intros Himage Hemail Hphone. unfold main.
  destruct (main_prelude env p) as (p1 & Hpre & Hout1 & Hw1).
  rewrite Hpre.
  destruct (main_body_never_completes env args p1 Himage Hemail Hphone)
    as (e & lines & Hbody).
  rewrite Hbody. exists e.
  exists ([disclaimer_text; (nl ++ times "=" 60)%string;
           "[iPhoenix] Initializing ethical OSINT investigation...";
           (times "=" 60 ++ nl)%string] ++ lines)%list.
  split; [reflexivity|].
  unfold print. cbn [snd fst stdout written]. split; [|exact Hw1].
  rewrite Hout1, <- !app_assoc. reflexivity.
Qed.

Lemma username_run_exits_with_1_witness :
  exists e lines,
    fst (main demo_env demo_args initial_process) = 1%Z /\
    stdout (snd (main demo_env demo_args initial_process))
    = (stdout initial_process ++ lines
       ++ [(nl ++ "[✗] Error during analysis: " ++ str e)%string])%list /\
    written (snd (main demo_env demo_args initial_process))
    = written initial_process.
Proof.
  apply (username_run_exits_with_1 demo_env demo_args initial_process);
    reflexivity.
Defined.

(* ================================================================== *)
(** ** The report for a results dictionary *)

Lemma dict_get_map_values {A B} (g : A -> B) (k : string) (d : dict A) :
  dict_get k (map (fun kv => (fst kv, g (snd kv))) d)
  = option_map g (dict_get k d).
Proof.
  induction d as [|[k' v] d IH]; simpl; [reflexivity|].
  now destruct (String.eqb k' k).
Qed.

Lemma entry_status_in_python (e : Entry) (default : pyval) :
  py_get (entry_to_python e) "status" default = Return (PStr (status e)).
Proof. reflexivity. Qed.

Lemma entry_url_in_python (e : Entry) (default : pyval) :
  py_get (entry_to_python e) "url" default = Return (PStr (entry_url e)).
Proof.
  unfold entry_to_python.
  destruct (response_time_ms e), (error e); reflexivity.
Qed.

Lemma collect_found_platforms (d : dict Entry) :
  forall acc : list (string * pyval),
  fold_left
    (fun acc kv =>
       rbind acc (fun found_platforms =>
       rbind (py_get (snd kv) "status" PNone) (fun st =>
       Return (if py_eq_str st "found"
               then (found_platforms ++ [kv])%list
               else found_platforms))))
    (map (fun kv => (fst kv, entry_to_python (snd kv))) d) (Return acc)
  = Return (acc ++ map (fun kv => (fst kv, entry_to_python (snd kv)))
                       (with_status "found" d))%list.
Proof.
  induction d as [|[k e] d IH]; intros acc; simpl.
  - now rewrite app_nil_r.
  - destruct (String.eqb (status e) "found"); simpl.
    + rewrite IH. now rewrite <- app_assoc.
    + apply IH.
Qed.

Lemma print_found_platforms (env : Env) (l : dict Entry) (p : Process) :
  io_for_each (map (fun kv => (fst kv, entry_to_python (snd kv))) l)
    (fun kv =>
       u <~ io_lift (py_get (snd kv) "url" (PStr EmptyString)) ;;
       print ("    • " ++ fst kv ++ ": " ++ py_str (repr env) u)) p
  = (Return tt,
     {| colors := colors p;
        stdout := (stdout p
                   ++ map (fun kv => ("    • " ++ fst kv ++ ": "
                                      ++ entry_url (snd kv))%string) l)%list;
        case_data := case_data p; written := written p |}).
Proof.
  revert p. induction l as [|[k e] l IH]; intros p.
  - simpl. unfold io_ret. rewrite app_nil_r. now destruct p.
  - cbn [map io_for_each fst snd]. unfold io_bind at 1 2. unfold io_lift.
    rewrite entry_url_in_python. unfold print at 1.
    rewrite IH. cbn [colors stdout case_data written py_str map fst snd].
    now rewrite <- app_assoc.
Qed.

Lemma python_username (r : Results) (default : pyval) :
  py_get (to_python r) "username" default = Return (PStr (r_username r)).
Proof. reflexivity. Qed.

Lemma python_summary (r : Results) (default : pyval) :
  py_get (to_python r) "summary" default
  = Return (PDict (map (fun kv => (fst kv, PInt (snd kv))) (summary r))).
Proof. reflexivity. Qed.

Lemma python_counter (d : dict Z) (key : string) :
  py_get (PDict (map (fun kv => (fst kv, PInt (snd kv))) d)) key (PInt 0)
  = Return (PInt (match dict_get key d with Some n => n | None => 0%Z end)).
Proof.
  unfold py_get. rewrite dict_get_map_values.
  now destruct (dict_get key d).
Qed.

Lemma python_has_platforms_checked (r : Results) :
  py_in "platforms_checked" (to_python r) = Return true.
Proof. reflexivity. Qed.

Lemma python_platforms_checked (r : Results) :
  py_getitem (to_python r) "platforms_checked"
  = Return (PDict (map (fun kv => (fst kv, entry_to_python (snd kv)))
                       (platforms_checked r))).
Proof. reflexivity. Qed.

Lemma bind_color {A} (attribute : Colors -> string) (k : string -> IO A)
  (p : Process) :
  io_bind (color attribute) k p = k (attribute (colors p)) p.
Proof. reflexivity. Qed.

Lemma bind_print {A} (line : string) (k : unit -> IO A) (p : Process) :
  io_bind (print line) k p
  = k tt {| colors := colors p; stdout := (stdout p ++ [line])%list;
            case_data := case_data p; written := written p |}.
Proof. reflexivity. Qed.

Lemma bind_return {A B} (a : A) (k : A -> IO B) (p : Process) :
  io_bind (io_lift (Return a)) k p = k a p.
Proof. reflexivity. Qed.

Ltac io_run :=
  repeat (first [ rewrite bind_color | rewrite bind_print
                | rewrite bind_return ];
          cbv beta; cbn [colors stdout case_data written]).

Lemma format_username_results_runs (env : Env) (r : Results) (p : Process) :
  _format_username_results env (to_python r) p
  = (Return tt,
     {| colors := colors p;
        stdout := (stdout p ++ report_lines env (colors p) r)%list;
        case_data := case_data p; written := written p |}).
Proof.
  unfold report_lines, counter, _format_username_results.
  rewrite bind_color. cbv beta.
  rewrite python_username. io_run.
  rewrite python_summary. io_run.
  rewrite !python_counter. io_run.
  cbn [py_positive]. io_run.
  rewrite python_has_platforms_checked. io_run. cbv iota.
  io_run. rewrite python_platforms_checked. io_run.
  cbn [py_items]. io_run.
  rewrite (collect_found_platforms (platforms_checked r) []%list).
  cbn [app]. io_run.
  destruct (with_status "found" (platforms_checked r)) as [|kv found] eqn:E.
  - unfold io_ret. cbn [map]. cbv iota.
    rewrite <- !app_assoc. cbn [app py_str].
    destruct (dict_get "errors" (summary r)); reflexivity.
  - rewrite <- E.
    destruct (map (fun kv => (fst kv, entry_to_python (snd kv)))
                  (with_status "found" (platforms_checked r))) eqn:Em;
      [rewrite E in Em; discriminate|].
    rewrite <- Em. io_run. rewrite print_found_platforms.
    cbn [colors stdout case_data written py_str].
    rewrite <- !app_assoc. cbn [app].
    rewrite E.
    destruct (dict_get "errors" (summary r)); reflexivity.
Qed.

(** X15 -- What [_format_username_results] prints when it is given the
    results dictionary itself ([report_lines]): the identifier, the three
    counters (a counter missing from the summary reads 0; the errors line is
    coloured only when the counter is positive), and under the platform
    details only the platforms whose status is found, in the order of the
    dictionary, each with its recorded URL.  The not_found platforms and the
    failures appear as counts alone.  The call returns normally and changes
    nothing but the output. *)
Theorem report_lists_found_platforms (env : Env) (r : Results) (p : Process) :
  _format_username_results env (to_python r) p
  = (Return tt,
     {| colors := colors p;
        stdout := (stdout p ++ report_lines env (colors p) r)%list;
        case_data := case_data p; written := written p |})
  /\
  (forall c,
     List.length (report_lines env c r)
     = (6 + match with_status "found" (platforms_checked r) with
            | [] => 0
            | found => S (List.length found)
            end)%nat).
Proof.
  split; [apply format_username_results_runs|].
  intros c. unfold report_lines. rewrite length_app. simpl List.length.
  destruct (with_status "found" (platforms_checked r)); [reflexivity|].
  simpl. now rewrite length_map.
Qed.


Lemma bind_ret {A B} (a : A) (k : A -> IO B) (p : Process) :
  io_bind (io_ret a) k p = k a p.
Proof. reflexivity. Qed.

Lemma bind_set_colors {A} (c : Colors) (k : unit -> IO A) (p : Process) :
  io_bind (set_colors c) k p
  = k tt {| colors := c; stdout := stdout p;
            case_data := case_data p; written := written p |}.
Proof. reflexivity. Qed.

Lemma bind_assoc {A B C} (m : IO A) (f : A -> IO B) (g : B -> IO C)
  (p : Process) :
  io_bind (io_bind m f) g p = io_bind m (fun x => io_bind (f x) g) p.
Proof.
  unfold io_bind. destruct (m p) as [[a|e] p']; reflexivity.
Qed.

(** X16 -- The call the formatter is written for.  Given a dictionary that
    holds the results under the key [username] (the shape of the findings of
    the case data), [format_output] returns normally after printing the
    banner, the report of [_format_username_results] and the closing
    reminder, in this order.  With [no_color] every colour code is empty in
    these lines, and the colour table stays blank afterwards. *)
Theorem format_output_runs_on_findings (env : Env) (r : Results)
  (no_color : bool) (p : Process) :
  format_output env (PDict [("username", to_python r)]%list) no_color p
  = (Return tt,
     {| colors := if no_color then no_colors else colors p;
        stdout :=
          (stdout p
           ++ banner_lines (if no_color then no_colors else colors p)
           ++ report_lines env (if no_color then no_colors else colors p) r
           ++ reminder_lines (if no_color then no_colors else colors p))%list;
        case_data := case_data p; written := written p |}).
Proof.
  unfold format_output.
  change (py_in "image" (PDict [("username", to_python r)]%list))
    with (@Return bool false).
  change (py_in "username" (PDict [("username", to_python r)]%list))
    with (@Return bool true).
  change (py_getitem (PDict [("username", to_python r)]%list) "username")
    with (Return (to_python r)).
  destruct no_color.
  - rewrite bind_set_colors. io_run. rewrite bind_assoc. io_run. cbv iota.
    rewrite bind_assoc. io_run. cbv iota. rewrite bind_assoc. io_run.
    unfold io_bind at 1. rewrite format_username_results_runs.
    io_run. unfold print. cbn [colors stdout case_data written].
    unfold banner_lines, reminder_lines.
    rewrite <- !app_assoc. reflexivity.
  - rewrite bind_ret. io_run. rewrite bind_assoc. io_run. cbv iota.
    rewrite bind_assoc. io_run. cbv iota. rewrite bind_assoc. io_run.
    unfold io_bind at 1. rewrite format_username_results_runs.
    io_run. unfold print. cbn [colors stdout case_data written].
    unfold banner_lines, reminder_lines.
    rewrite <- !app_assoc. reflexivity.
Qed.

Lemma endswith_append (s suffix : string) : endswith (s ++ suffix) suffix = true.
Proof.
  induction s as [|c s IH].
  - simpl. destruct suffix; simpl; [reflexivity|].
    now rewrite Ascii.eqb_refl, String.eqb_refl.
  - change (String c s ++ suffix) with (String c (s ++ suffix)).
    cbn [endswith]. rewrite IH. apply orb_true_r.
Qed.

(** X17 -- The case file always gets a name that ends in [.json]: a name
    that has the ending is kept, any other name gets it appended.  When the
    file system accepts the write, the case data are written once under the
    path of that name, the path is printed and returned, and nothing else
    changes. *)
Theorem case_file_name_ends_in_json (env : Env) (filename : string)
  (p : Process) :
  let name := if endswith filename ".json" then filename
              else filename ++ ".json" in
  write_error env (case_path env name) = None ->
  endswith name ".json" = true /\
  save_case_file env filename p
  = (Return (case_path env name),
     {| colors := colors p;
        stdout := (stdout p
                   ++ [(nl ++ "[✓] Case saved to: " ++ case_path env name)%string])%list;
        case_data := case_data p;
        written := (written p ++ [(case_path env name, case_data p)])%list |}).
Proof.
  intros name Hok. subst name. split.
  - destruct (endswith filename ".json") eqn:E; [exact E|].
    apply endswith_append.
  - unfold save_case_file. rewrite Hok. reflexivity.
Qed.

Lemma case_file_name_ends_in_json_witness :
  endswith "case1.json" ".json" = true /\
  save_case_file demo_env "case1" initial_process
  = (Return "cases/case1.json",
     {| colors := default_colors;
        stdout := [(nl ++ "[✓] Case saved to: " ++ "cases/case1.json")%string];
        case_data := initial_case_data;
        written := [("cases/case1.json", initial_case_data)] |}).
Proof.
  apply (case_file_name_ends_in_json demo_env "case1" initial_process).
  reflexivity.
Defined.
